(** * baldr: the resource API dispatch layer of [baldr/api.py]

    A shallow embedding of [ResourceApiBase], [ResourceApi] and the
    capability mixins, followed by the properties of dispatch, of the
    exception table of [wrap_view] and of the allowed-method lists. *)

From Stdlib Require Import ZArith String Ascii List Lia.
From stdpp Require Import base option list gmap strings fin_maps.

Local Open Scope string_scope.
Local Set Warnings "-register-all".

(** ** Python strings, values and exceptions *)

Module Py.

(** [str.lower] and [str.upper] on byte strings: only ASCII letters move. *)
Definition lower_char (c : ascii) : ascii :=
  let n := N_of_ascii c in
  if ((65 <=? n) && (n <=? 90))%N then ascii_of_N (n + 32) else c.

Definition upper_char (c : ascii) : ascii :=
  let n := N_of_ascii c in
  if ((97 <=? n) && (n <=? 122))%N then ascii_of_N (n - 32) else c.

Fixpoint lower (s : string) : string :=
  match s with
  | EmptyString => EmptyString
  | String c r => String (lower_char c) (lower r)
  end.

Fixpoint upper (s : string) : string :=
  match s with
  | EmptyString => EmptyString
  | String c r => String (upper_char c) (upper r)
  end.

(** [sep.join(items)] *)
Fixpoint join (sep : string) (items : list string) : string :=
  match items with
  | [] => ""
  | [x] => x
  | x :: rest => x +:+ sep +:+ join sep rest
  end.

(** [x in items] for a list of strings. *)
Definition contains (x : string) (items : list string) : bool :=
  bool_decide (x ∈ items).

(** The [meta] attribute of an error resource: the per-field messages of a
    validation failure, or the formatted stack trace in debug mode. *)
Inductive MetaVal :=
| MetaDict (fields : gmap string (list string))
| MetaStr (text : string).

(** [baldr.resources.Error(status, code, message, developer_message=None,
    meta=None)]: the structured error payload. *)
Record Error := mkError {
  status : Z;
  code : Z;
  message : string;
  developer_message : option string;
  meta : option MetaVal
}.

(** The values that handlers return and that a codec encodes. *)
Inductive PyVal :=
| PyNone
| PyInt (n : Z)
| PyStr (s : string)
| PyTuple (items : list PyVal)
| PyList (items : list PyVal)
| PyError (e : Error)
| Listing (results : list PyVal) (limit offset : Z)
| PyResource (name : string) (fields : list (string * PyVal)).

(** Instances of [Exception], one constructor per [except] clause of
    [wrap_view]; whatever the earlier clauses do not name is [Exception_]
    with its class name. [ImmediateHttpResponse] carries the attributes
    [resource], [status] and [headers] that the wrapper reads. *)
Inductive PyExn :=
| Http404 (msg : string)
| ImmediateHttpResponse (resource : PyVal) (status : PyVal)
                        (headers : option (gmap string string))
| ValidationError (message_dict : option (gmap string (list string)))
                  (msg : string)
| PermissionDenied (msg : string)
| NotImplementedError
| Exception_ (cls : string) (msg : string).

(** [str(e)] *)
Definition str_exn (e : PyExn) : string :=
  match e with
  | Http404 msg => msg
  | ImmediateHttpResponse _ _ _ => ""
  | ValidationError _ msg => msg
  | PermissionDenied msg => msg
  | NotImplementedError => ""
  | Exception_ _ msg => msg
  end.

(** A Python call either returns a value or raises. *)
Inductive Result (A : Type) :=
| Return (a : A)
| Raise (e : PyExn).

Arguments Return {A} a.
Arguments Raise {A} e.

#[global] Instance Result_ret : MRet Result := fun A a => Return a.
#[global] Instance Result_bind : MBind Result :=
  fun A B f c => match c with Return a => f a | Raise e => Raise e end.

Definition TypeError (msg : string) : PyExn := Exception_ "TypeError" msg.
Definition ValueError (msg : string) : PyExn := Exception_ "ValueError" msg.
Definition AttributeError (msg : string) : PyExn :=
  Exception_ "AttributeError" msg.
Definition RuntimeError (msg : string) : PyExn :=
  Exception_ "RuntimeError" msg.

(** Modelled from the spec: [baldr.exceptions.ImmediateErrorHttpResponse] is
    not part of [api.py]; it is the immediate-response signal whose resource
    is an [Error] built from its first arguments and whose status is the
    error's status. *)
Definition ImmediateErrorHttpResponse (st cd : Z) (msg : string)
    (hdrs : option (gmap string string)) : PyExn :=
  ImmediateHttpResponse (PyError (mkError st cd msg None None)) (PyInt st) hdrs.

(** [int(s)] on a query-string value: optional blanks, an optional sign and
    decimal digits. *)
Definition is_blank (c : ascii) : bool :=
  let n := N_of_ascii c in ((n =? 32) || ((9 <=? n) && (n <=? 13)))%N.

Fixpoint lstrip (s : string) : string :=
  match s with
  | String c r => if is_blank c then lstrip r else s
  | EmptyString => EmptyString
  end.

Fixpoint digits (acc : Z) (seen : bool) (s : string) : option Z :=
  match s with
  | EmptyString => if seen then Some acc else None
  | String c r =>
      let n := N_of_ascii c in
      if ((48 <=? n) && (n <=? 57))%N
      then digits (10 * acc + Z.of_N (n - 48)) true r
      else if seen && bool_decide (lstrip s = EmptyString) then Some acc
      else None
  end.

Definition int (s : string) : Result Z :=
  let parsed :=
    match lstrip s with
    | String "-" r => Z.opp <$> digits 0 false r
    | String "+" r => digits 0 false r
    | t => digits 0 false t
    end in
  match parsed with
  | Some z => Return z
  | None => Raise (ValueError "invalid literal for int() with base 10")
  end.

End Py.

Export Py.

(** ** Requests, codecs and responses *)

(** A codec of [registered_codecs]: [odin.codecs.json_codec] and the like.
    Encoding is a function to bytes; decoding the request body can fail. *)
Record Codec := mkCodec {
  CONTENT_TYPE : string;
  dumps : PyVal → string;
  loads : string → string → Result PyVal
}.

(** The attributes of a Django request that [api.py] and the content-type
    resolvers read or set; [codec] is set by the wrapper and [type] by
    [dispatch]. *)
Record Request := mkRequest {
  method : string;
  META : gmap string string;
  GET : gmap string string;
  data : string;
  codec : option Codec;
  type : option string
}.

Definition set_codec (request : Request) (c : Codec) : Request :=
  mkRequest (method request) (META request) (GET request) (data request)
            (Some c) (type request).

Definition set_type (request : Request) (request_type : string) : Request :=
  mkRequest (method request) (META request) (GET request) (data request)
            (codec request) (Some request_type).

(** What is handed to [HttpResponse(content, content_type=..., status=...)]
    and the headers set on it afterwards with [response[key] = value]. *)
Record HttpResponse := mkResponse {
  content : string;
  content_type : option string;
  status_code : PyVal;
  headers : gmap string string
}.

Definition set_header (key value : string) (response : HttpResponse)
    : HttpResponse :=
  mkResponse (content response) (content_type response)
             (status_code response) (<[key := value]> (headers response)).

(** Keyword arguments: the named groups of the matched URL. *)
Abbreviation Kwargs := (gmap string PyVal).

(** [settings.DEBUG] and the lines of [traceback.format_exception] for the
    exception being handled. *)
Record Runtime := mkRuntime {
  DEBUG : bool;
  format_exception : PyExn → list string
}.

(** ** The API classes *)

Inductive Mixin :=
| ActionMixin | ListMixin | CreateMixin | RetrieveMixin
| UpdateMixin | DeleteMixin.

#[global] Instance Mixin_eq_dec : EqDecision Mixin.
Proof. solve_decision. Defined.

(** The class attributes [list_allowed_methods] and [detail_allowed_methods]
    of [ResourceApi]. They are list objects owned by the class: every
    instance of every subclass reaches the same two lists through attribute
    lookup, so they live in a store of their own and not in the instance. *)
Record ClassStore := mkStore {
  list_allowed_methods : list string;
  detail_allowed_methods : list string
}.

Definition ResourceApi_store : ClassStore := mkStore ["get"] ["get"].

(** A concrete API class: the mixins it derives from, in method resolution
    order, and what its own body defines. The abstract delegates are [None]
    when the class leaves them to the mixin, whose body raises
    [NotImplementedError]. [allowed_attrs] holds the [<kind>_allowed_methods]
    attributes of action kinds (the value [None] stands for an attribute
    bound to [None]); [methods] holds further handlers such as
    [get_summary_list]. The class does not rebind the two lists of
    [ClassStore]. *)
Record ApiClass := mkApiClass {
  resource : string;
  class_api_name : option string;
  mro : list Mixin;
  content_type_resolvers : list (Request → option string);
  registered_codecs : gmap string Codec;
  allowed_attrs : gmap string (option (list string));
  methods : gmap string (Request → Kwargs → Result PyVal);
  pre_dispatch : option (Request → Kwargs → Result (option Kwargs));
  post_dispatch : option (Request → PyVal → Result PyVal);
  list_resources_def : option (Request → Z → Z → Result (list PyVal));
  create_resource_def : option (Request → PyVal → bool → Result PyVal);
  retrieve_resource_def : option (Request → PyVal → Result PyVal);
  update_resource_def : option (Request → PyVal → PyVal → bool → Result PyVal);
  delete_resource_def : option (Request → PyVal → Result PyVal)
}.

(** An instance: its class and the [api_name] it ends up with. *)
Record Api := mkApi {
  cls : ApiClass;
  api_name : string
}.

(** [ResourceApiBase.__init__] *)
Definition ResourceApiBase_init (c : ApiClass) (name : option string) : Api :=
  match name with
  | Some n =>
      if bool_decide (n = "") then
        mkApi c (default (resource c +:+ "s") (class_api_name c))
      else mkApi c n
  | None => mkApi c (default (resource c +:+ "s") (class_api_name c))
  end.

(** The [__init__] chain along the method resolution order: each mixin
    that defines [__init__] first calls [super().__init__] and then appends
    its verb to the class list. *)
Fixpoint init_store (order : list Mixin) (st : ClassStore) : ClassStore :=
  match order with
  | [] => st
  | CreateMixin :: rest =>
      let st' := init_store rest st in
      mkStore (list_allowed_methods st' ++ ["post"])
              (detail_allowed_methods st')
  | UpdateMixin :: rest =>
      let st' := init_store rest st in
      mkStore (list_allowed_methods st')
              (detail_allowed_methods st' ++ ["post"])
  | DeleteMixin :: rest =>
      let st' := init_store rest st in
      mkStore (list_allowed_methods st')
              (detail_allowed_methods st' ++ ["delete"])
  | _ :: rest => init_store rest st
  end.

(** Constructing an instance of class [c]. *)
Definition new (c : ApiClass) (name : option string) (st : ClassStore)
    : Api * ClassStore :=
  (ResourceApiBase_init c name, init_store (mro c) st).

(** Constructing [n] instances, one after the other. *)
Fixpoint new_many (c : ApiClass) (n : nat) (st : ClassStore) : ClassStore :=
  match n with
  | O => st
  | S k => snd (new c None (new_many c k st))
  end.

(** ** Calling conventions *)

(** A bound method taking [(request, **kwargs)]. *)
Abbreviation Handler := (Request → Kwargs → Result PyVal).

(** [def f(self, request)]: no keyword argument is accepted. *)
Definition no_kwargs (kwargs : Kwargs) : Result unit :=
  if bool_decide (dom kwargs =@{gset string} ∅) then Return ()
  else Raise (TypeError "got an unexpected keyword argument").

(** [def f(self, request, resource_id)]: exactly that keyword. *)
Definition only_resource_id (kwargs : Kwargs) : Result PyVal :=
  match kwargs !! "resource_id" with
  | Some v =>
      if bool_decide (dom kwargs =@{gset string} {["resource_id"]})
      then Return v
      else Raise (TypeError "got an unexpected keyword argument")
  | None =>
      if bool_decide (dom kwargs =@{gset string} ∅)
      then Raise (TypeError "takes exactly 3 arguments")
      else Raise (TypeError "got an unexpected keyword argument")
  end.

(** [def f(self, request, **kwargs)] handing on to
    [self.dispatch(request, request_type, **kwargs)]: a keyword naming one of
    the positional parameters is a second value for it. *)
Definition no_positional_clash (kwargs : Kwargs) : Result unit :=
  if bool_decide (dom kwargs ##@{gset string}
                    {["self"; "request"; "request_type"]})
  then Return ()
  else Raise (TypeError "got multiple values for keyword argument").

(** [request.codec] *)
Definition request_codec (request : Request) : Result Codec :=
  match codec request with
  | Some c => Return c
  | None => Raise (AttributeError "object has no attribute 'codec'")
  end.

(** ** The mixins' handlers *)

Section Handlers.
Variable self : Api.

(** The abstract delegates: the definition of the concrete class if it
    has one, else the body in the mixin, [raise NotImplementedError]. *)
Definition list_resources (request : Request) (offset limit : Z)
    : Result (list PyVal) :=
  match list_resources_def (cls self) with
  | Some f => f request offset limit
  | None => Raise NotImplementedError
  end.

Definition create_resource (request : Request) (res : PyVal)
    (is_complete : bool) : Result PyVal :=
  match create_resource_def (cls self) with
  | Some f => f request res is_complete
  | None => Raise NotImplementedError
  end.

Definition retrieve_resource (request : Request) (resource_id : PyVal)
    : Result PyVal :=
  match retrieve_resource_def (cls self) with
  | Some f => f request resource_id
  | None => Raise NotImplementedError
  end.

Definition update_resource (request : Request) (resource_id res : PyVal)
    (is_complete : bool) : Result PyVal :=
  match update_resource_def (cls self) with
  | Some f => f request resource_id res is_complete
  | None => Raise NotImplementedError
  end.

Definition delete_resource (request : Request) (resource_id : PyVal)
    : Result PyVal :=
  match delete_resource_def (cls self) with
  | Some f => f request resource_id
  | None => Raise NotImplementedError
  end.

(** [ListMixin.get_list] *)
Definition get_list : Handler := fun request kwargs =>
  _ ← no_kwargs kwargs;
  offset ← match GET request !! "offset" with
           | Some s => int s
           | None => Return 0%Z
           end;
  limit ← match GET request !! "limit" with
          | Some s => int s
          | None => Return 50%Z
          end;
  result ← list_resources request offset limit;
  Return (Listing result limit offset).

(** [CreateMixin.post_list]: the only [return] is the bare one under
    [if result is None]; otherwise the body runs off its end. *)
Definition CreateMixin_post_list : Handler := fun request kwargs =>
  _ ← no_kwargs kwargs;
  c ← request_codec request;
  res ← loads c (data request) (resource (cls self));
  result ← create_resource request res false;
  match result with
  | PyNone => Return PyNone
  | _ => Return PyNone
  end.

(** [CreateMixin.put_list] *)
Definition CreateMixin_put_list : Handler := fun request kwargs =>
  _ ← no_kwargs kwargs;
  c ← request_codec request;
  res ← loads c (data request) (resource (cls self));
  create_resource request res true.

(** [RetrieveMixin.get_detail] *)
Definition get_detail : Handler := fun request kwargs =>
  resource_id ← only_resource_id kwargs;
  retrieve_resource request resource_id.

(** [UpdateMixin.post_list] *)
Definition UpdateMixin_post_list : Handler := fun request kwargs =>
  resource_id ← only_resource_id kwargs;
  c ← request_codec request;
  res ← loads c (data request) (resource (cls self));
  update_resource request resource_id res false.

(** [UpdateMixin.put_list] *)
Definition UpdateMixin_put_list : Handler := fun request kwargs =>
  resource_id ← only_resource_id kwargs;
  c ← request_codec request;
  res ← loads c (data request) (resource (cls self));
  update_resource request resource_id res true.

(** [DeleteMixin.delete_detail] *)
Definition delete_detail : Handler := fun request kwargs =>
  resource_id ← only_resource_id kwargs;
  delete_resource request resource_id.

(** The handler-shaped names that each mixin class binds. *)
Definition mixin_method (m : Mixin) (name : string) : option Handler :=
  match m with
  | ListMixin =>
      if bool_decide (name = "get_list") then Some get_list else None
  | CreateMixin =>
      if bool_decide (name = "post_list") then Some CreateMixin_post_list
      else if bool_decide (name = "put_list") then Some CreateMixin_put_list
      else None
  | RetrieveMixin =>
      if bool_decide (name = "get_detail") then Some get_detail else None
  | UpdateMixin =>
      if bool_decide (name = "post_list") then Some UpdateMixin_post_list
      else if bool_decide (name = "put_list") then Some UpdateMixin_put_list
      else None
  | DeleteMixin =>
      if bool_decide (name = "delete_detail") then Some delete_detail
      else None
  | ActionMixin => None
  end.
End Handlers.

(** ** Dispatch *)

(** [getattr(self, "%s_allowed_methods" % request_type, [])] *)
Definition getattr_allowed_methods (self : Api) (st : ClassStore)
    (request_type : string) : option (list string) :=
  let name := request_type +:+ "_allowed_methods" in
  if bool_decide (name = "list_allowed_methods")
  then Some (list_allowed_methods st)
  else if bool_decide (name = "detail_allowed_methods")
  then Some (detail_allowed_methods st)
  else default (Some []) (allowed_attrs (cls self) !! name).

(** [ResourceApiBase.method_check] *)
Definition method_check (self : Api) (request : Request)
    (allowed : option (list string)) : Result string :=
  let request_method := lower (method request) in
  match allowed with
  | None => Raise (Http404 ("`" +:+ api_name self +:+ "` not found."))
  | Some allowed =>
      if negb (contains request_method allowed) then
        Raise (ImmediateErrorHttpResponse 405 40500 "Method not allowed"
                 (Some {["Allow" := join "," (map upper allowed)]}))
      else Return request_method
  end.

(** [ResourceApiBase.handle_authorisation]: the body is [pass]. *)
Definition handle_authorisation (self : Api) (request : Request)
    : Result unit :=
  Return ().

Section Lookup.
(** [self.dispatch], for the two views that are themselves attributes of
    handler shape. *)
Variable self_dispatch : Request → string → Kwargs → Result PyVal.
Variable self : Api.

(** [ResourceApi.dispatch_list] and [ResourceApi.dispatch_detail] *)
Definition dispatch_list : Handler := fun request kwargs =>
  _ ← no_positional_clash kwargs;
  self_dispatch request "list" kwargs.

Definition dispatch_detail : Handler := fun request kwargs =>
  _ ← no_positional_clash kwargs;
  self_dispatch request "detail" kwargs.

(** [ActionMixin.dispatch_list_action] and [dispatch_detail_action], with
    the [action] keyword already bound. *)
Definition dispatch_list_action (action : string) : Handler :=
  fun request kwargs =>
    _ ← no_positional_clash kwargs;
    self_dispatch request (action +:+ "_list") kwargs.

Definition dispatch_detail_action (action : string) : Handler :=
  fun request kwargs =>
    _ ← no_positional_clash kwargs;
    self_dispatch request (action +:+ "_detail") kwargs.

(** Attribute lookup along the method resolution order, ending in
    [ResourceApi]. *)
Fixpoint mro_lookup (order : list Mixin) (name : string) : option Handler :=
  match order with
  | [] =>
      if bool_decide (name = "dispatch_list") then Some dispatch_list
      else if bool_decide (name = "dispatch_detail")
      then Some dispatch_detail
      else None
  | m :: rest =>
      match mixin_method self m name with
      | Some h => Some h
      | None => mro_lookup rest name
      end
  end.

(** [getattr(self, name, None)] for a name ["%s_%s" % (verb, kind)]. The
    kinds come from the four views and end in [list] or [detail], and these
    are the attributes of that shape: what the concrete class defines, then
    what its bases define. *)
Definition getattr_method (name : string) : option Handler :=
  match methods (cls self) !! name with
  | Some h => Some h
  | None => mro_lookup (mro (cls self)) name
  end.
End Lookup.

(** The pre-dispatch hook of [dispatch]: [hasattr(self, 'pre_dispatch')],
    and a response other than [None] overrides the keyword arguments. *)
Definition run_pre_dispatch (self : Api) (request : Request) (kwargs : Kwargs)
    : Result Kwargs :=
  match pre_dispatch (cls self) with
  | Some hook =>
      response ← hook request kwargs;
      match response with
      | Some replaced => Return replaced
      | None => Return kwargs
      end
  | None => Return kwargs
  end.

(** The post-dispatch hook of [dispatch]: its response is returned. *)
Definition run_post_dispatch (self : Api) (request : Request) (result : PyVal)
    : Result PyVal :=
  match post_dispatch (cls self) with
  | Some hook => hook request result
  | None => Return result
  end.

(** [ResourceApiBase.dispatch]. [frames] is what is left of the interpreter's
    recursion limit: a class that lists the verb [dispatch] re-enters itself
    through [dispatch_list] until the interpreter raises. *)
Fixpoint dispatch (frames : nat) (self : Api) (st : ClassStore)
    (request : Request) (request_type : string) (kwargs : Kwargs)
    : Result PyVal :=
  match frames with
  | O => Raise (RuntimeError "maximum recursion depth exceeded")
  | S frames' =>
      let allowed_methods := getattr_allowed_methods self st request_type in
      request_method ← method_check self request allowed_methods;
      let request := set_type request request_type in
      _ ← handle_authorisation self request;
      match getattr_method (dispatch frames' self st) self
              (request_method +:+ "_" +:+ request_type) with
      | None => Raise NotImplementedError
      | Some method =>
          kwargs ← run_pre_dispatch self request kwargs;
          result ← method request kwargs;
          run_post_dispatch self request result
      end
  end.

(** ** The view wrapper *)

(** [ResourceApiBase.resolve_content_type]: the first resolver that returns
    something truthy wins. *)
Fixpoint first_content_type (resolvers : list (Request → option string))
    (request : Request) : option string :=
  match resolvers with
  | [] => None
  | resolver :: rest =>
      match resolver request with
      | Some ct =>
          if bool_decide (ct = "") then first_content_type rest request
          else Some ct
      | None => first_content_type rest request
      end
  end.

Definition resolve_content_type (self : Api) (request : Request)
    : option string :=
  first_content_type (content_type_resolvers (cls self)) request.

Definition newline : string := String (ascii_of_nat 10) "".

(** [ResourceApiBase.handle_500] *)
Definition handle_500 (rt : Runtime) (request : Request) (exception : PyExn)
    : Error :=
  if DEBUG rt then
    let the_trace := join newline (format_exception rt exception) in
    mkError 500 50000
      "An unknown error has occurred, the developers have been notified."
      (Some (str_exn exception)) (Some (MetaStr the_trace))
  else
    mkError 500 50000
      "An unknown error has occurred, the developers have been notified."
      None None.

(** The four URL patterns of [base_urls], each with the named groups it
    captures; the view it wraps is [dispatch_list], [dispatch_detail],
    [dispatch_list_action] and [dispatch_detail_action] in this order. *)
Inductive UrlMatch :=
| ListUrl
| DetailUrl (resource_id : string)
| ListActionUrl (action : string)
| DetailActionUrl (resource_id action : string).

(** The request kind that the matched view hands to [dispatch]. *)
Definition kind (m : UrlMatch) : string :=
  match m with
  | ListUrl => "list"
  | DetailUrl _ => "detail"
  | ListActionUrl action => action +:+ "_list"
  | DetailActionUrl _ action => action +:+ "_detail"
  end.

(** The keyword arguments left for [dispatch]. *)
Definition url_kwargs (m : UrlMatch) : Kwargs :=
  match m with
  | ListUrl | ListActionUrl _ => ∅
  | DetailUrl resource_id | DetailActionUrl resource_id _ =>
      {["resource_id" := PyStr resource_id]}
  end.

(** [callback(request, *args, **kwargs)] with [callback = getattr(self,
    view)] *)
Definition callback (frames : nat) (self : Api) (st : ClassStore)
    (m : UrlMatch) (request : Request) : Result PyVal :=
  let self_dispatch := dispatch frames self st in
  match m with
  | ListUrl => dispatch_list self_dispatch request (url_kwargs m)
  | DetailUrl _ => dispatch_detail self_dispatch request (url_kwargs m)
  | ListActionUrl action =>
      dispatch_list_action self_dispatch action request (url_kwargs m)
  | DetailActionUrl _ action =>
      dispatch_detail_action self_dispatch action request (url_kwargs m)
  end.

(** The tail of the wrapper: [if resource is None: ... else: ...]. *)
Definition encode (c : Codec) (res status : PyVal) : HttpResponse :=
  match res with
  | PyNone => mkResponse "" None status ∅
  | _ => mkResponse (dumps c res) (Some (CONTENT_TYPE c)) status ∅
  end.

(** The [try] statement of the wrapper around the outcome of the callback:
    the [except] clauses in their order, then the [else] clause. *)
Definition respond (rt : Runtime) (c : Codec) (request : Request)
    (outcome : Result PyVal) : HttpResponse :=
  match outcome with
  | Raise (Http404 msg) =>
      encode c (PyError (mkError 404 40400 msg None None)) (PyInt 404)
  | Raise (ImmediateHttpResponse res status hdrs) =>
      map_fold set_header
        (mkResponse (dumps c res) (Some (CONTENT_TYPE c)) status ∅)
        (default ∅ hdrs)
  | Raise (ValidationError message_dict msg) =>
      match message_dict with
      | Some fields =>
          encode c (PyError (mkError 400 40000 "Fields failed validation."
                               None (Some (MetaDict fields)))) (PyInt 400)
      | None => encode c (PyError (mkError 400 40000 msg None None)) (PyInt 400)
      end
  | Raise (PermissionDenied msg) =>
      encode c (PyError (mkError 403 40300 "Permission denied" (Some msg) None))
             (PyInt 403)
  | Raise NotImplementedError =>
      encode c (PyError (mkError 501 50100
                           "This method has not been implemented." None None))
             (PyInt 501)
  | Raise (Exception_ cl msg) =>
      let res := handle_500 rt request (Exception_ cl msg) in
      encode c (PyError res) (PyInt (status res))
  | Return result =>
      match result with
      | PyTuple [res; status] => encode c res status
      | PyNone => encode c PyNone (PyInt 204)
      | _ => encode c result (PyInt 200)
      end
  end.

(** The [wrapper] closure that [wrap_view] returns for the view of [m]. *)
Definition wrapper (rt : Runtime) (frames : nat) (self : Api)
    (st : ClassStore) (m : UrlMatch) (request : Request) : HttpResponse :=
  let content_type := resolve_content_type self request in
  match content_type ≫= (registered_codecs (cls self) !!.) with
  | None =>
      mkResponse "Content cannot be returned in the format requested."
                 None (PyInt 406) ∅
  | Some c =>
      let request := set_codec request c in
      respond rt c request (callback frames self st m request)
  end.

(** ** A small API used for concrete runs *)

Module Widgets.

(** A codec that renders an error by its message and anything else by a
    fixed word, and that decodes a body to a resource holding it. *)
Definition render (v : PyVal) : string :=
  match v with
  | PyNone => "null"
  | PyStr s => s
  | PyError e => "error: " +:+ message e
  | _ => "resource"
  end.

Definition parse (body name : string) : Result PyVal :=
  Return (PyResource name [("body", PyStr body)]).

Definition text_codec : Codec := mkCodec "text/plain" render parse.

Definition accepts_header (request : Request) : option string :=
  META request !! "HTTP_ACCEPT".

Definition runtime : Runtime := mkRuntime false (fun _ => []).

(** [class WidgetApi(<bases>): resource = Widget], with the hooks and the
    delegates that its body defines. *)
Definition widget_class_with (bases : list Mixin)
    (pre : option (Request → Kwargs → Result (option Kwargs)))
    (post : option (Request → PyVal → Result PyVal))
    (create : option (Request → PyVal → bool → Result PyVal))
    (retrieve : option (Request → PyVal → Result PyVal))
    (update : option (Request → PyVal → PyVal → bool → Result PyVal))
    : ApiClass :=
  mkApiClass "widget" None bases [accepts_header]
             {["text/plain" := text_codec]} ∅ ∅
             pre post None create retrieve update None.

Definition widget_class (bases : list Mixin) : ApiClass :=
  widget_class_with bases None None None None None.

Definition request_of (verb body : string) : Request :=
  mkRequest verb {["HTTP_ACCEPT" := "text/plain"]} ∅ body None None.

(** A [create_resource] that hands back the decoded resource. *)
Definition store_widget (request : Request) (res : PyVal) (is_complete : bool)
    : Result PyVal :=
  Return res.

(** An [update_resource] that hands back the decoded resource. *)
Definition replace_widget (request : Request) (resource_id res : PyVal)
    (is_complete : bool) : Result PyVal :=
  Return res.

(** A [retrieve_resource] with one widget per way of ending. *)
Definition find_widget (request : Request) (resource_id : PyVal)
    : Result PyVal :=
  match resource_id with
  | PyStr "0" =>
      Raise (ValidationError (Some {["name" := ["This field is required."]]})
                             "invalid widget")
  | PyStr "13" => Raise (ValidationError None "unlucky widget")
  | PyStr "403" => Raise (PermissionDenied "not yours")
  | PyStr "201" => Return (PyTuple [PyStr "made"; PyInt 201])
  | PyStr "202" => Return (PyTuple [PyNone; PyInt 202])
  | PyStr "204" => Return PyNone
  | _ => Return (PyResource "widget" [("id", resource_id)])
  end.

(** A [pre_dispatch] that redirects widget 5 to widget 6 and leaves the
    other requests alone. *)
Definition renumber (request : Request) (kwargs : Kwargs)
    : Result (option Kwargs) :=
  match kwargs !! "resource_id" with
  | Some (PyStr "5") => Return (Some {["resource_id" := PyStr "6"]})
  | _ => Return None
  end.

Definition retrieve_class : ApiClass :=
  widget_class_with [RetrieveMixin] (Some renumber) None None
                    (Some find_widget) None.

Definition create_class : ApiClass :=
  widget_class_with [CreateMixin] None None (Some store_widget) None None.

Definition update_class : ApiClass :=
  widget_class_with [UpdateMixin] None None None None (Some replace_widget).

End Widgets.

(** ** Routes *)

(** The class attributes [url_prefix] and [resource_id_regex]; the source
    binds them to the empty string and to a run of digits. *)
Record UrlConf := mkUrlConf {
  url_prefix : string;
  resource_id_regex : string
}.

Definition default_conf : UrlConf := mkUrlConf "" "\d+".

(** What [django.conf.urls.url(regex, view, ...)] is given: the regular
    expression and the view, here the name handed to [wrap_view]. *)
Record UrlPattern := mkUrl {
  regex : string;
  view : string
}.

(** [ResourceApiBase.url] *)
Definition url (conf : UrlConf) (self : Api) (part view_name : string)
    : UrlPattern :=
  if bool_decide (part = "") then
    mkUrl ("^" +:+ (url_prefix conf +:+ lower (api_name self)) +:+ "/?$")
          view_name
  else
    mkUrl ("^" +:+ (url_prefix conf +:+ lower (api_name self)) +:+ "/"
           +:+ part +:+ "/?$")
          view_name.

(** [ResourceApiBase.base_urls] *)
Definition ResourceApiBase_base_urls : list UrlPattern := [].

(** [ResourceApi.base_urls] *)
Definition ResourceApi_base_urls (conf : UrlConf) (self : Api)
    : list UrlPattern :=
  ResourceApiBase_base_urls ++
  [ url conf self "" "dispatch_list";
    url conf self ("(?P<resource_id>" +:+ resource_id_regex conf +:+ ")")
        "dispatch_detail" ].

(** [ActionMixin.base_urls]: its [super(ResourceApi, self)] starts the
    lookup behind [ResourceApi], at [ResourceApiBase]. *)
Definition ActionMixin_base_urls (conf : UrlConf) (self : Api)
    : list UrlPattern :=
  ResourceApiBase_base_urls ++
  [ url conf self "(?P<action>[-\w\d]+)" "dispatch_list_action";
    url conf self
        ("(?P<resource_id>" +:+ resource_id_regex conf
         +:+ ")/(?P<action>[-\w\d]+)")
        "dispatch_detail_action" ].

(** [self.base_urls()]: [ActionMixin] comes before [ResourceApi] in the
    resolution order of every class that derives from it. *)
Definition base_urls (conf : UrlConf) (self : Api) : list UrlPattern :=
  if bool_decide (ActionMixin ∈ mro (cls self))
  then ActionMixin_base_urls conf self
  else ResourceApi_base_urls conf self.

(** The property [ResourceApiBase.urls] *)
Definition urls (conf : UrlConf) (self : Api) : list UrlPattern :=
  base_urls conf self.

(** [ApiCollection]: the attributes [api_name] and [resource_apis], and
    [_urls], absent until the first read of [urls]. *)
Record ApiCollection := mkApiCollection {
  collection_name : string;
  resource_apis : list (UrlConf * Api);
  cached_urls : option (list UrlPattern)
}.

(** [ApiCollection.__init__]: the APIs, and the keyword [api_name] popped
    with the default [api]. *)
Definition ApiCollection_init (apis : list (UrlConf * Api))
    (name : option string) : ApiCollection :=
  mkApiCollection (default "api" name) apis None.

(** The property [ApiCollection.urls]: the list that is returned and the
    collection afterwards. *)
Definition ApiCollection_urls (self : ApiCollection)
    : list UrlPattern * ApiCollection :=
  match cached_urls self with
  | Some found => (found, self)
  | None =>
      let found :=
        foldl (λ (acc : list UrlPattern) api,
                 (acc ++ urls (fst api) (snd api))%list) []
              (resource_apis self) in
      (found,
       mkApiCollection (collection_name self) (resource_apis self)
                       (Some found))
  end.

(** What [django.conf.urls.include(urls, namespace)] is given. *)
Record Include := mkInclude {
  included : list UrlPattern;
  namespace : option string
}.

(** [ApiCollection.include] *)
Definition ApiCollection_include (self : ApiCollection)
    (ns : option string) : Include * ApiCollection :=
  let '(found, self') := ApiCollection_urls self in
  (mkInclude found ns, self').

(** [ApiCollection.patterns]: one pattern, the prefix of the collection in
    front of everything it includes. *)
Definition ApiCollection_patterns (self : ApiCollection)
    : list (string * Include) * ApiCollection :=
  let '(inc, self') := ApiCollection_include self None in
  ([("^" +:+ collection_name self +:+ "/", inc)], self').

(** ** More APIs for concrete runs *)

Module Gadgets.

(** A [list_resources] with five gadgets, whatever the page asked for. *)
Definition all_gadgets (request : Request) (offset limit : Z)
    : Result (list PyVal) :=
  Return [PyStr "a"; PyStr "b"; PyStr "c"; PyStr "d"; PyStr "e"].

(** A [delete_resource] that returns nothing. *)
Definition drop_gadget (request : Request) (resource_id : PyVal)
    : Result PyVal :=
  Return PyNone.

(** A [post_dispatch] that wraps the result with a status. *)
Definition accepted (request : Request) (result : PyVal) : Result PyVal :=
  Return (PyTuple [result; PyInt 202]).

(** An action handler, [get_summary_list]. *)
Definition get_summary_list (request : Request) (kwargs : Kwargs)
    : Result PyVal :=
  Return (PyStr "summary").

(** A handler that answers at once. *)
Definition get_teapot_list (request : Request) (kwargs : Kwargs)
    : Result PyVal :=
  Raise (ImmediateHttpResponse PyNone (PyInt 418)
           (Some {["X-Pot" := "tea"]})).

(** [class GadgetApi(<bases>)] with [list_resources], [create_resource],
    [retrieve_resource] and [delete_resource] defined. *)
Definition gadget_class (bases : list Mixin)
    (post : option (Request → PyVal → Result PyVal)) : ApiClass :=
  mkApiClass "gadget" None bases [Widgets.accepts_header]
             {["text/plain" := Widgets.text_codec]} ∅ ∅
             None post (Some all_gadgets) (Some Widgets.store_widget)
             (Some Widgets.find_widget) None (Some drop_gadget).

(** [class ReportApi(ActionMixin)] with the action [summary] on the list,
    the action [teapot], and [hidden_list_allowed_methods = None]. *)
Definition report_class : ApiClass :=
  mkApiClass "report" None [ActionMixin] [Widgets.accepts_header]
             {["text/plain" := Widgets.text_codec]}
             {["summary_list_allowed_methods" := Some ["get"];
               "teapot_list_allowed_methods" := Some ["get"];
               "hidden_list_allowed_methods" := None]}
             {["get_summary_list" := get_summary_list;
               "get_teapot_list" := get_teapot_list]}
             None None None None None None None.

(** A request that asks for a content type nobody registered. *)
Definition xml_request (verb : string) : Request :=
  mkRequest verb {["HTTP_ACCEPT" := "text/xml"]} ∅ "" None None.

(** A codec that cannot decode an empty body, and a class using it. *)
Definition strict_parse (body name : string) : Result PyVal :=
  if bool_decide (body = "")
  then Raise (Exception_ "CodecDecodeError" "Unable to decode the body")
  else Widgets.parse body name.

Definition strict_codec : Codec :=
  mkCodec "text/strict" Widgets.render strict_parse.

Definition strict_class : ApiClass :=
  mkApiClass "gadget" None [CreateMixin] [fun _ => Some "text/strict"]
             {["text/strict" := strict_codec]} ∅ ∅
             None None None (Some Widgets.store_widget) None None None.

(** A [pre_dispatch] that lets nobody in, and a class using it. *)
Definition login_required (request : Request) (kwargs : Kwargs)
    : Result (option Kwargs) :=
  Raise (PermissionDenied "log in first").

Definition guarded_class : ApiClass :=
  mkApiClass "gadget" None [RetrieveMixin] [Widgets.accepts_header]
             {["text/plain" := Widgets.text_codec]} ∅ ∅
             (Some login_required) (Some accepted) None None
             (Some Widgets.find_widget) None None.

Definition debug_runtime : Runtime :=
  mkRuntime true (fun _ => ["Traceback"; "  boom"]).

End Gadgets.

(** ** Unfolding lemmas *)

Definition codec_established (self : Api) (request : Request) (c : Codec)
    : Prop :=
  resolve_content_type self request ≫= (registered_codecs (cls self) !!.)
  = Some c.

Example allow_header_of_two :
  join "," (map upper ["get"; "post"]) = "GET,POST".
Proof. reflexivity. Qed.

Example lower_of_verb : lower "DELETE" = "delete".
Proof. reflexivity. Qed.

Lemma url_kwargs_no_clash (m : UrlMatch) :
  no_positional_clash (url_kwargs m) = Return ().
Proof.
  destruct m; reflexivity.
Qed.

Lemma callback_dispatch frames self st m request :
  callback frames self st m request
  = dispatch frames self st request (kind m) (url_kwargs m).
Proof.
  destruct m; unfold callback, dispatch_list, dispatch_detail,
    dispatch_list_action, dispatch_detail_action;
    rewrite url_kwargs_no_clash; reflexivity.
Qed.

Lemma wrapper_established rt frames self st m request c :
  codec_established self request c →
  wrapper rt frames self st m request
  = respond rt c (set_codec request c)
      (dispatch frames self st (set_codec request c) (kind m) (url_kwargs m)).
Proof.
  unfold codec_established, wrapper. intros ->.
  by rewrite callback_dispatch.
Qed.

Lemma wrapper_not_acceptable rt frames self st m request :
  resolve_content_type self request ≫= (registered_codecs (cls self) !!.)
  = None →
  status_code (wrapper rt frames self st m request) = PyInt 406.
Proof. unfold wrapper. by intros ->. Qed.

(** The step of [dispatch] behind the method check. *)
Lemma dispatch_checked frames self st request request_type kwargs verb :
  method_check self request (getattr_allowed_methods self st request_type)
  = Return verb →
  dispatch (S frames) self st request request_type kwargs
  = match getattr_method (dispatch frames self st) self
            (verb +:+ "_" +:+ request_type) with
    | None => Raise NotImplementedError
    | Some h =>
        kw ← run_pre_dispatch self (set_type request request_type) kwargs;
        result ← h (set_type request request_type) kw;
        run_post_dispatch self (set_type request request_type) result
    end.
Proof. simpl. intros ->. reflexivity. Qed.

Lemma dispatch_check_fails frames self st request request_type kwargs e :
  method_check self request (getattr_allowed_methods self st request_type)
  = Raise e →
  dispatch (S frames) self st request request_type kwargs = Raise e.
Proof. simpl. intros ->. reflexivity. Qed.

(** The method check returns the lower-cased verb exactly when the allowed
    methods are a list holding it. *)
Lemma method_check_passes self request allowed :
  lower (method request) ∈ allowed →
  method_check self request (Some allowed) = Return (lower (method request)).
Proof.
  intros Hin. unfold method_check, contains.
  by rewrite bool_decide_eq_true_2.
Qed.

Lemma method_check_rejects self request allowed :
  lower (method request) ∉ allowed →
  method_check self request (Some allowed)
  = Raise (ImmediateErrorHttpResponse 405 40500 "Method not allowed"
             (Some {["Allow" := join "," (map upper allowed)]})).
Proof.
  intros Hin. unfold method_check, contains.
  by rewrite bool_decide_eq_false_2.
Qed.

(** What the wrapper makes of the immediate response of a failed method
    check. *)
Lemma respond_method_not_allowed rt c request allowed :
  respond rt c request
    (Raise (ImmediateErrorHttpResponse 405 40500 "Method not allowed"
              (Some {["Allow" := join "," (map upper allowed)]})))
  = mkResponse
      (dumps c (PyError (mkError 405 40500 "Method not allowed" None None)))
      (Some (CONTENT_TYPE c)) (PyInt 405)
      {["Allow" := join "," (map upper allowed)]}.
Proof.
  unfold respond, ImmediateErrorHttpResponse. simpl.
  rewrite map_fold_singleton. reflexivity.
Qed.

Lemma length_append (s t : string) :
  String.length (s +:+ t) = String.length s + String.length t.
Proof. induction s as [|c r IH]; simpl; [reflexivity | by rewrite IH]. Qed.

Lemma append_suffix_inj (t s1 s2 : string) : s1 +:+ t = s2 +:+ t → s1 = s2.
Proof.
  revert s2. induction s1 as [|c r IH]; intros [|c' r'] H.
  - reflexivity.
  - apply (f_equal String.length) in H.
    rewrite !length_append in H. simpl in H. lia.
  - apply (f_equal String.length) in H.
    rewrite !length_append in H. simpl in H. lia.
  - simpl in H. injection H as -> H. f_equal. by apply IH.
Qed.

(** A kind other than [list] and [detail] for which the class binds no
    [<kind>_allowed_methods] gets the default of the [getattr], the empty
    list, and not [None]. *)
Lemma getattr_allowed_methods_default self st request_type :
  request_type ≠ "list" → request_type ≠ "detail" →
  allowed_attrs (cls self) !! (request_type +:+ "_allowed_methods") = None →
  getattr_allowed_methods self st request_type = Some [].
Proof.
  intros Hl Hd Hnone. unfold getattr_allowed_methods.
  rewrite !bool_decide_eq_false_2, Hnone; [reflexivity| |].
  - intros H. apply Hd. by apply (append_suffix_inj "_allowed_methods").
  - intros H. apply Hl. by apply (append_suffix_inj "_allowed_methods").
Qed.

(** Without an entry the method check therefore rejects every verb with the
    immediate 405 response and an empty [Allow] header; the [Http404] of
    [method_check] is not reached. *)
Lemma dispatch_unset_kind frames self st request request_type kwargs :
  request_type ≠ "list" → request_type ≠ "detail" →
  allowed_attrs (cls self) !! (request_type +:+ "_allowed_methods") = None →
  dispatch (S frames) self st request request_type kwargs
  = Raise (ImmediateErrorHttpResponse 405 40500 "Method not allowed"
             (Some {["Allow" := ""]})).
Proof.
  intros Hl Hd Hnone. apply dispatch_check_fails.
  rewrite getattr_allowed_methods_default by done.
  apply (method_check_rejects self request []). apply not_elem_of_nil.
Qed.

(** The [Http404] of [method_check] is reached when the attribute is bound
    to [None]. *)
Lemma dispatch_none_entry frames self st request request_type kwargs :
  getattr_allowed_methods self st request_type = None →
  dispatch (S frames) self st request request_type kwargs
  = Raise (Http404 ("`" +:+ api_name self +:+ "` not found.")).
Proof. intros Hnone. apply dispatch_check_fails. by rewrite Hnone. Qed.

(** ** Properties of the method check *)

(** C1, evaluated on the code: an API of [ActionMixin] binds no
    [summary_list_allowed_methods], and a request for the list action
    [summary] is answered, for every verb, with status 405 and an empty
    [Allow] header, where the specification asks for not-found, 404. *)
Theorem unset_kind_answers_405 (verb : string) :
  let self := fst (new (Widgets.widget_class [ActionMixin]) None
                       ResourceApi_store) in
  let response :=
    wrapper Widgets.runtime 1 self ResourceApi_store (ListActionUrl "summary")
            (Widgets.request_of verb "") in
  allowed_attrs (cls self) !! "summary_list_allowed_methods" = None
  ∧ status_code response = PyInt 405
  ∧ status_code response ≠ PyInt 404
  ∧ headers response !! "Allow" = Some "".
Proof.
  intros self response. subst response.
  rewrite (wrapper_established _ _ _ _ _ _ Widgets.text_codec)
    by reflexivity.
  rewrite dispatch_unset_kind by done.
  rewrite (respond_method_not_allowed _ _ _ []).
  repeat split; done.
Qed.

(** C5: when the lower-cased verb is not in the allowed methods of the
    request's kind, the response has status 405, its [Allow] header is the
    allowed verbs upper-cased and joined by commas, whatever the verb was,
    and its body is the encoded error 40500. *)
Theorem verb_not_allowed_answers_405 rt frames self st m request c allowed :
  codec_established self request c →
  getattr_allowed_methods self st (kind m) = Some allowed →
  lower (method request) ∉ allowed →
  wrapper rt (S frames) self st m request
  = mkResponse
      (dumps c (PyError (mkError 405 40500 "Method not allowed" None None)))
      (Some (CONTENT_TYPE c)) (PyInt 405)
      {["Allow" := join "," (map upper allowed)]}.
Proof.
  intros Hc Hallowed Hverb.
  rewrite (wrapper_established _ _ _ _ _ _ c) by done.
  rewrite (dispatch_check_fails _ _ _ _ _ _
             (ImmediateErrorHttpResponse 405 40500 "Method not allowed"
                (Some {["Allow" := join "," (map upper allowed)]}))).
  - apply respond_method_not_allowed.
  - rewrite Hallowed. by apply method_check_rejects.
Qed.

Lemma verb_not_allowed_answers_405_witness :
  wrapper Widgets.runtime 1
    (fst (new Widgets.create_class None ResourceApi_store))
    (snd (new Widgets.create_class None ResourceApi_store))
    ListUrl (Widgets.request_of "DELETE" "")
  = mkResponse "error: Method not allowed" (Some "text/plain") (PyInt 405)
               {["Allow" := "GET,POST"]}
  ∧ wrapper Widgets.runtime 1
      (fst (new (Widgets.widget_class [UpdateMixin; DeleteMixin]) None
                ResourceApi_store))
      (snd (new (Widgets.widget_class [UpdateMixin; DeleteMixin]) None
                ResourceApi_store))
      (DetailUrl "1") (Widgets.request_of "PUT" "")
    = mkResponse "error: Method not allowed" (Some "text/plain") (PyInt 405)
                 {["Allow" := "GET,DELETE,POST"]}
  ∧ wrapper Widgets.runtime 1
      (fst (new (Widgets.widget_class [ListMixin]) None ResourceApi_store))
      ResourceApi_store ListUrl (Widgets.request_of "DELETE" "")
    = mkResponse "error: Method not allowed" (Some "text/plain") (PyInt 405)
                 {["Allow" := "GET"]}.
Proof.
  refine (conj _ (conj _ _)).
  - apply (verb_not_allowed_answers_405 Widgets.runtime 0 _ _ ListUrl _
             Widgets.text_codec ["get"; "post"]).
    + reflexivity.
    + reflexivity.
    + simpl. intros H. apply elem_of_cons in H as [H | H]; [discriminate H|].
      apply list_elem_of_singleton in H. discriminate H.
  - apply (verb_not_allowed_answers_405 Widgets.runtime 0 _ _ (DetailUrl "1")
             _ Widgets.text_codec ["get"; "delete"; "post"]).
    + reflexivity.
    + reflexivity.
    + simpl. intros H. apply elem_of_cons in H as [H | H]; [discriminate H|].
      apply elem_of_cons in H as [H | H]; [discriminate H|].
      apply list_elem_of_singleton in H. discriminate H.
  - apply (verb_not_allowed_answers_405 Widgets.runtime 0 _ _ ListUrl _
             Widgets.text_codec ["get"]).
    + reflexivity.
    + reflexivity.
    + simpl. intros H. apply list_elem_of_singleton in H. discriminate H.
Defined.

(** C6: when the verb passes the method check and the API object has no
    attribute named verb_kind, dispatch raises [NotImplementedError] and the
    response is the encoded error with status 501, code 50100 and message
    "This method has not been implemented.". *)
Theorem missing_handler_answers_501 rt frames self st m request c allowed :
  codec_established self request c →
  getattr_allowed_methods self st (kind m) = Some allowed →
  lower (method request) ∈ allowed →
  getattr_method (dispatch frames self st) self
    (lower (method request) +:+ "_" +:+ kind m) = None →
  dispatch (S frames) self st (set_codec request c) (kind m) (url_kwargs m)
  = Raise NotImplementedError
  ∧ wrapper rt (S frames) self st m request
    = mkResponse
        (dumps c (PyError (mkError 501 50100
                             "This method has not been implemented."
                             None None)))
        (Some (CONTENT_TYPE c)) (PyInt 501) ∅.
Proof.
  intros Hc Hallowed Hverb Hattr.
  assert (dispatch (S frames) self st (set_codec request c) (kind m)
            (url_kwargs m) = Raise NotImplementedError) as Hd.
  { rewrite (dispatch_checked _ _ _ _ _ _ (lower (method request))).
    - by rewrite Hattr.
    - rewrite Hallowed.
      by apply (method_check_passes self (set_codec request c)). }
  split; [exact Hd|].
  rewrite (wrapper_established _ _ _ _ _ _ c) by done.
  by rewrite Hd.
Qed.

Lemma missing_handler_answers_501_witness :
  dispatch 1 (fst (new (Widgets.widget_class [CreateMixin]) None
                       ResourceApi_store))
    (snd (new (Widgets.widget_class [CreateMixin]) None ResourceApi_store))
    (set_codec (Widgets.request_of "GET" "") Widgets.text_codec)
    "list" ∅
  = Raise NotImplementedError
  ∧ wrapper Widgets.runtime 1
      (fst (new (Widgets.widget_class [CreateMixin]) None ResourceApi_store))
      (snd (new (Widgets.widget_class [CreateMixin]) None ResourceApi_store))
      ListUrl (Widgets.request_of "GET" "")
    = mkResponse "error: This method has not been implemented."
                 (Some "text/plain") (PyInt 501) ∅.
Proof.
  apply (missing_handler_answers_501 Widgets.runtime 0 _ _ ListUrl _
           Widgets.text_codec ["get"; "post"]).
  - reflexivity.
  - reflexivity.
  - simpl. apply list_elem_of_here.
  - reflexivity.
Defined.

(** ** Properties of the exception table *)

(** Setting the headers of an immediate response one by one ends with
    exactly those headers on the encoded resource. *)
Lemma set_headers_all (content0 : string) (ct : option string)
    (status0 : PyVal) (hdrs : gmap string string) :
  map_fold set_header (mkResponse content0 ct status0 ∅) hdrs
  = mkResponse content0 ct status0 hdrs.
Proof.
  apply (map_fold_weak_ind
           (λ r m, r = mkResponse content0 ct status0 m)); [reflexivity|].
  intros i x m r _ ->. reflexivity.
Qed.

Lemma respond_immediate rt c request res st hdrs :
  respond rt c request (Raise (ImmediateHttpResponse res st hdrs))
  = mkResponse (dumps c res) (Some (CONTENT_TYPE c)) st (default ∅ hdrs).
Proof. simpl. apply set_headers_all. Qed.

(** An error resource is never [None], so it is always encoded. *)
Lemma encode_error c err st :
  encode c (PyError err) st
  = mkResponse (dumps c (PyError err)) (Some (CONTENT_TYPE c)) st ∅.
Proof. reflexivity. Qed.

(** C2: once a codec is established, whatever exception the dispatched view
    raises, the wrapper returns a response whose body is codec-encoded and
    carries the codec's content type: for the immediate-response signal the
    body is its resource under its status, for every other exception the
    body is an error resource whose status, between 400 and 599, is the
    status of the response. The wrapper is a function to responses: nothing
    is raised out of it. *)
Theorem exception_becomes_encoded_response rt frames self st m request c e :
  codec_established self request c →
  callback frames self st m (set_codec request c) = Raise e →
  ∃ res code,
    content (wrapper rt frames self st m request) = dumps c res
    ∧ content_type (wrapper rt frames self st m request)
      = Some (CONTENT_TYPE c)
    ∧ status_code (wrapper rt frames self st m request) = code
    ∧ match e with
      | ImmediateHttpResponse r s _ => res = r ∧ code = s
      | _ => ∃ err, res = PyError err ∧ code = PyInt (status err)
                    ∧ (400 ≤ status err ≤ 599)%Z
      end.
Proof.
  intros Hc Hraise.
  rewrite (wrapper_established _ _ _ _ _ _ c) by done.
  rewrite <- callback_dispatch, Hraise.
  destruct e as [msg|r s hdrs|[fields|] msg|msg| |cl msg].
  - eexists _, _. repeat split. eexists. repeat split; simpl; lia.
  - rewrite respond_immediate. eexists _, _. repeat split.
  - eexists _, _. repeat split. eexists. repeat split; simpl; lia.
  - eexists _, _. repeat split. eexists. repeat split; simpl; lia.
  - eexists _, _. repeat split. eexists. repeat split; simpl; lia.
  - eexists _, _. repeat split. eexists. repeat split; simpl; lia.
  - eexists _, _. repeat split. eexists. repeat split.
    + unfold handle_500. destruct (DEBUG rt); simpl; lia.
    + unfold handle_500. destruct (DEBUG rt); simpl; lia.
Qed.

Lemma exception_becomes_encoded_response_witness :
  ∃ res code,
    content (wrapper Widgets.runtime 1
               (mkApi Widgets.retrieve_class "widgets")
               ResourceApi_store (DetailUrl "403")
               (Widgets.request_of "GET" ""))
    = Widgets.render res
    ∧ content_type (wrapper Widgets.runtime 1
                      (mkApi Widgets.retrieve_class "widgets")
                      ResourceApi_store (DetailUrl "403")
                      (Widgets.request_of "GET" ""))
      = Some "text/plain"
    ∧ status_code (wrapper Widgets.runtime 1
                     (mkApi Widgets.retrieve_class "widgets")
                     ResourceApi_store (DetailUrl "403")
                     (Widgets.request_of "GET" ""))
      = code
    ∧ ∃ err, res = PyError err ∧ code = PyInt (status err)
             ∧ (400 ≤ status err ≤ 599)%Z.
Proof.
  apply (exception_becomes_encoded_response Widgets.runtime 1
           (mkApi Widgets.retrieve_class "widgets") ResourceApi_store
           (DetailUrl "403") (Widgets.request_of "GET" "") Widgets.text_codec
           (PermissionDenied "not yours")).
  - reflexivity.
  - reflexivity.
Defined.

(** C4: the result that the dispatched view returns shapes the response. A
    tuple of two elements gives its second element as status and its first
    as resource; a result that is neither [None] nor such a tuple is encoded
    under status 200; [None] gives status 204; and whenever the resource is
    [None], under 204 or under the status of a pair, the response has an
    empty body, no content type and nothing from the codec. *)
Theorem result_shapes_response rt frames self st m request c result :
  codec_established self request c →
  callback frames self st m (set_codec request c) = Return result →
  (∀ res code, result = PyTuple [res; code] →
     status_code (wrapper rt frames self st m request) = code
     ∧ (res ≠ PyNone →
        content (wrapper rt frames self st m request) = dumps c res
        ∧ content_type (wrapper rt frames self st m request)
          = Some (CONTENT_TYPE c)))
  ∧ (result ≠ PyNone → (∀ res code, result ≠ PyTuple [res; code]) →
     wrapper rt frames self st m request
     = mkResponse (dumps c result) (Some (CONTENT_TYPE c)) (PyInt 200) ∅)
  ∧ (result = PyNone →
     wrapper rt frames self st m request = mkResponse "" None (PyInt 204) ∅)
  ∧ (∀ code, result = PyTuple [PyNone; code] →
     wrapper rt frames self st m request = mkResponse "" None code ∅).
Proof.
  intros Hc Hret.
  rewrite (wrapper_established _ _ _ _ _ _ c) by done.
  rewrite <- callback_dispatch, Hret.
  split; [|split; [|split]].
  - intros res code ->. split; [destruct res; reflexivity|].
    intros Hres. destruct res; done.
  - intros Hnone Hpair.
    destruct result as [| | |items| | | |]; try done.
    destruct items as [|x [|y [|z rest]]]; try done.
    by destruct (Hpair x y).
  - by intros ->.
  - by intros code ->.
Qed.

Lemma result_shapes_response_witness :
  (status_code (wrapper Widgets.runtime 1
                  (mkApi Widgets.retrieve_class "widgets")
                  ResourceApi_store (DetailUrl "201")
                  (Widgets.request_of "GET" "")) = PyInt 201
   ∧ content (wrapper Widgets.runtime 1
                (mkApi Widgets.retrieve_class "widgets")
                ResourceApi_store (DetailUrl "201")
                (Widgets.request_of "GET" "")) = "made"
   ∧ content_type (wrapper Widgets.runtime 1
                     (mkApi Widgets.retrieve_class "widgets")
                     ResourceApi_store (DetailUrl "201")
                     (Widgets.request_of "GET" "")) = Some "text/plain")
  ∧ wrapper Widgets.runtime 1 (mkApi Widgets.retrieve_class "widgets")
      ResourceApi_store (DetailUrl "1") (Widgets.request_of "GET" "")
    = mkResponse "resource" (Some "text/plain") (PyInt 200) ∅
  ∧ wrapper Widgets.runtime 1 (mkApi Widgets.retrieve_class "widgets")
      ResourceApi_store (DetailUrl "204") (Widgets.request_of "GET" "")
    = mkResponse "" None (PyInt 204) ∅
  ∧ wrapper Widgets.runtime 1 (mkApi Widgets.retrieve_class "widgets")
      ResourceApi_store (DetailUrl "202") (Widgets.request_of "GET" "")
    = mkResponse "" None (PyInt 202) ∅.
Proof.
  refine (conj _ (conj _ (conj _ _))).
  - pose proof (result_shapes_response Widgets.runtime 1
             (mkApi Widgets.retrieve_class "widgets") ResourceApi_store
             (DetailUrl "201") (Widgets.request_of "GET" "")
             Widgets.text_codec (PyTuple [PyStr "made"; PyInt 201])
             eq_refl eq_refl) as (Hpair & _).
    destruct (Hpair (PyStr "made") (PyInt 201) eq_refl) as (Hs & Hb).
    destruct (Hb ltac:(discriminate)) as (Hcontent & Hct).
    exact (conj Hs (conj Hcontent Hct)).
  - apply (result_shapes_response Widgets.runtime 1
             (mkApi Widgets.retrieve_class "widgets") ResourceApi_store
             (DetailUrl "1") (Widgets.request_of "GET" "")
             Widgets.text_codec
             (PyResource "widget" [("id", PyStr "1")]) eq_refl eq_refl);
      [discriminate | intros; discriminate].
  - exact (proj1 (proj2 (proj2 (result_shapes_response Widgets.runtime 1
             (mkApi Widgets.retrieve_class "widgets") ResourceApi_store
             (DetailUrl "204") (Widgets.request_of "GET" "")
             Widgets.text_codec PyNone eq_refl eq_refl))) eq_refl).
  - exact (proj2 (proj2 (proj2 (result_shapes_response Widgets.runtime 1
             (mkApi Widgets.retrieve_class "widgets") ResourceApi_store
             (DetailUrl "202") (Widgets.request_of "GET" "")
             Widgets.text_codec (PyTuple [PyNone; PyInt 202])
             eq_refl eq_refl))) (PyInt 202) eq_refl).
Defined.

(** ** Properties of dispatch *)

(** Past the method check and the handler lookup, [dispatch] is the
    pre-dispatch hook, the call of the handler and the post-dispatch hook;
    an exception of any of the three leaves [dispatch] as it is. *)
Lemma dispatch_reaches_handler frames self st request request_type kwargs
    allowed h :
  getattr_allowed_methods self st request_type = Some allowed →
  lower (method request) ∈ allowed →
  getattr_method (dispatch frames self st) self
    (lower (method request) +:+ "_" +:+ request_type) = Some h →
  dispatch (S frames) self st request request_type kwargs
  = (kw ← run_pre_dispatch self (set_type request request_type) kwargs;
     result ← h (set_type request request_type) kw;
     run_post_dispatch self (set_type request request_type) result).
Proof.
  intros Hallowed Hverb Hattr.
  rewrite (dispatch_checked _ _ _ _ _ _ (lower (method request))).
  - by rewrite Hattr.
  - rewrite Hallowed. by apply method_check_passes.
Qed.

(** C7: with a pre-dispatch hook defined, a value other than [None] that it
    returns is the keyword-argument set of the handler call in place of the
    original one, and when it returns [None] the handler is called with the
    original keyword arguments. *)
Theorem pre_dispatch_overrides_kwargs frames self st request request_type
    kwargs allowed h hook :
  getattr_allowed_methods self st request_type = Some allowed →
  lower (method request) ∈ allowed →
  getattr_method (dispatch frames self st) self
    (lower (method request) +:+ "_" +:+ request_type) = Some h →
  pre_dispatch (cls self) = Some hook →
  (∀ replaced,
     hook (set_type request request_type) kwargs = Return (Some replaced) →
     dispatch (S frames) self st request request_type kwargs
     = (result ← h (set_type request request_type) replaced;
        run_post_dispatch self (set_type request request_type) result))
  ∧ (hook (set_type request request_type) kwargs = Return None →
     dispatch (S frames) self st request request_type kwargs
     = (result ← h (set_type request request_type) kwargs;
        run_post_dispatch self (set_type request request_type) result)).
Proof.
  intros Hallowed Hverb Hattr Hhook.
  rewrite (dispatch_reaches_handler _ _ _ _ _ _ allowed h) by done.
  unfold run_pre_dispatch. rewrite Hhook.
  split.
  - by intros replaced ->.
  - by intros ->.
Qed.

Lemma pre_dispatch_overrides_kwargs_witness :
  dispatch 1 (mkApi Widgets.retrieve_class "widgets") ResourceApi_store
    (Widgets.request_of "GET" "") "detail" {["resource_id" := PyStr "5"]}
  = Return (PyResource "widget" [("id", PyStr "6")])
  ∧ dispatch 1 (mkApi Widgets.retrieve_class "widgets") ResourceApi_store
      (Widgets.request_of "GET" "") "detail" {["resource_id" := PyStr "4"]}
    = Return (PyResource "widget" [("id", PyStr "4")]).
Proof.
  split.
  - exact (proj1 (pre_dispatch_overrides_kwargs 0
             (mkApi Widgets.retrieve_class "widgets") ResourceApi_store
             (Widgets.request_of "GET" "") "detail"
             {["resource_id" := PyStr "5"]} ["get"]
             (get_detail (mkApi Widgets.retrieve_class "widgets"))
             Widgets.renumber eq_refl
             (list_elem_of_here "get" []) eq_refl eq_refl)
           {["resource_id" := PyStr "6"]} eq_refl).
  - exact (proj2 (pre_dispatch_overrides_kwargs 0
             (mkApi Widgets.retrieve_class "widgets") ResourceApi_store
             (Widgets.request_of "GET" "") "detail"
             {["resource_id" := PyStr "4"]} ["get"]
             (get_detail (mkApi Widgets.retrieve_class "widgets"))
             Widgets.renumber eq_refl
             (list_elem_of_here "get" []) eq_refl eq_refl)
           eq_refl).
Defined.

(** An exception of the handler is the exception of [dispatch]: the
    post-dispatch hook is not run. *)
Lemma dispatch_handler_raises frames self st request request_type kwargs
    allowed h kw e :
  getattr_allowed_methods self st request_type = Some allowed →
  lower (method request) ∈ allowed →
  getattr_method (dispatch frames self st) self
    (lower (method request) +:+ "_" +:+ request_type) = Some h →
  run_pre_dispatch self (set_type request request_type) kwargs = Return kw →
  h (set_type request request_type) kw = Raise e →
  dispatch (S frames) self st request request_type kwargs = Raise e.
Proof.
  intros Hallowed Hverb Hattr Hpre Hraise.
  rewrite (dispatch_reaches_handler _ _ _ _ _ _ allowed h) by done.
  rewrite Hpre. simpl. by rewrite Hraise.
Qed.

(** C8: when the handler that dispatch reaches raises a validation failure,
    the response is an encoded error with status 400 and code 40000: with
    per-field messages its [meta] is that mapping from field names to
    messages, and without them its message is the text of the exception. *)
Theorem validation_failure_answers_400 rt frames self st m request c allowed
    h kw message_dict msg :
  codec_established self request c →
  getattr_allowed_methods self st (kind m) = Some allowed →
  lower (method request) ∈ allowed →
  getattr_method (dispatch frames self st) self
    (lower (method request) +:+ "_" +:+ kind m) = Some h →
  run_pre_dispatch self (set_type (set_codec request c) (kind m))
    (url_kwargs m) = Return kw →
  h (set_type (set_codec request c) (kind m)) kw
  = Raise (ValidationError message_dict msg) →
  (∀ fields, message_dict = Some fields →
     wrapper rt (S frames) self st m request
     = mkResponse
         (dumps c (PyError (mkError 400 40000 "Fields failed validation."
                              None (Some (MetaDict fields)))))
         (Some (CONTENT_TYPE c)) (PyInt 400) ∅)
  ∧ (message_dict = None →
     wrapper rt (S frames) self st m request
     = mkResponse (dumps c (PyError (mkError 400 40000 msg None None)))
                  (Some (CONTENT_TYPE c)) (PyInt 400) ∅).
Proof.
  intros Hc Hallowed Hverb Hattr Hpre Hraise.
  rewrite (wrapper_established _ _ _ _ _ _ c) by done.
  rewrite (dispatch_handler_raises _ _ _ _ _ _ allowed h kw
             (ValidationError message_dict msg)) by done.
  split.
  - by intros fields ->.
  - by intros ->.
Qed.

Lemma validation_failure_answers_400_witness :
  wrapper Widgets.runtime 1 (mkApi Widgets.retrieve_class "widgets")
    ResourceApi_store (DetailUrl "0") (Widgets.request_of "GET" "")
  = mkResponse "error: Fields failed validation." (Some "text/plain")
               (PyInt 400) ∅
  ∧ wrapper Widgets.runtime 1 (mkApi Widgets.retrieve_class "widgets")
      ResourceApi_store (DetailUrl "13") (Widgets.request_of "GET" "")
    = mkResponse "error: unlucky widget" (Some "text/plain") (PyInt 400) ∅.
Proof.
  split.
  - exact (proj1 (validation_failure_answers_400 Widgets.runtime 0
             (mkApi Widgets.retrieve_class "widgets") ResourceApi_store
             (DetailUrl "0") (Widgets.request_of "GET" "")
             Widgets.text_codec ["get"]
             (get_detail (mkApi Widgets.retrieve_class "widgets"))
             {["resource_id" := PyStr "0"]}
             (Some {["name" := ["This field is required."]]})
             "invalid widget"
             eq_refl eq_refl (list_elem_of_here "get" [])
             eq_refl eq_refl eq_refl)
           {["name" := ["This field is required."]]} eq_refl).
  - exact (proj2 (validation_failure_answers_400 Widgets.runtime 0
             (mkApi Widgets.retrieve_class "widgets") ResourceApi_store
             (DetailUrl "13") (Widgets.request_of "GET" "")
             Widgets.text_codec ["get"]
             (get_detail (mkApi Widgets.retrieve_class "widgets"))
             {["resource_id" := PyStr "13"]} None "unlucky widget"
             eq_refl eq_refl (list_elem_of_here "get" [])
             eq_refl eq_refl eq_refl)
           eq_refl).
Defined.

(** ** Properties of the mixins *)

(** Whatever [CreateMixin.post_list] returns is [None]. *)
Lemma CreateMixin_post_list_only_None self request kwargs v :
  CreateMixin_post_list self request kwargs = Return v → v = PyNone.
Proof.
  unfold CreateMixin_post_list.
  destruct (no_kwargs kwargs) as [[]|]; simpl; [|discriminate].
  destruct (request_codec request) as [c|]; simpl; [|discriminate].
  destruct (loads c _ _) as [res|]; simpl; [|discriminate].
  destruct (create_resource self request res false) as [result|]; simpl;
    [|discriminate].
  destruct result; congruence.
Qed.

(** C10: [CreateMixin.post_list] returns [None] whatever [create_resource]
    returns. So a POST on the list URL of an API whose [post_list] is the one
    of [CreateMixin], with no hook in between, a body that decodes and a
    [create_resource] that returns any value, is answered with status 204
    and an empty body. *)
Theorem create_post_answers_204 rt frames self st request c res result :
  codec_established self request c →
  lower (method request) = "post" →
  "post" ∈ list_allowed_methods st →
  getattr_method (dispatch frames self st) self "post_list"
  = Some (CreateMixin_post_list self) →
  pre_dispatch (cls self) = None →
  post_dispatch (cls self) = None →
  loads c (data request) (resource (cls self)) = Return res →
  create_resource self (set_type (set_codec request c) "list") res false
  = Return result →
  (∀ request' kwargs' v,
     CreateMixin_post_list self request' kwargs' = Return v → v = PyNone)
  ∧ CreateMixin_post_list self (set_type (set_codec request c) "list") ∅
    = Return PyNone
  ∧ wrapper rt (S frames) self st ListUrl request
    = mkResponse "" None (PyInt 204) ∅.
Proof.
  intros Hc Hverb Hallowed Hattr Hpre Hpost Hloads Hcreate.
  assert (CreateMixin_post_list self (set_type (set_codec request c) "list") ∅
          = Return PyNone) as Hnone.
  { unfold CreateMixin_post_list. simpl. rewrite Hloads. simpl.
    rewrite Hcreate. simpl. by destruct result. }
  split; [apply CreateMixin_post_list_only_None|].
  split; [exact Hnone|].
  rewrite (wrapper_established _ _ _ _ _ _ c) by done.
  rewrite (dispatch_reaches_handler _ _ _ _ _ _ (list_allowed_methods st)
             (CreateMixin_post_list self)).
  - unfold run_pre_dispatch, run_post_dispatch. rewrite Hpre, Hpost. simpl.
    unfold url_kwargs. by rewrite Hnone.
  - reflexivity.
  - simpl. by rewrite Hverb.
  - simpl. by rewrite Hverb.
Qed.

Lemma create_post_answers_204_witness :
  (∀ request' kwargs' v,
     CreateMixin_post_list
       (fst (new Widgets.create_class None ResourceApi_store))
       request' kwargs' = Return v → v = PyNone)
  ∧ CreateMixin_post_list
      (fst (new Widgets.create_class None ResourceApi_store))
      (set_type (set_codec (Widgets.request_of "POST" "a widget")
                           Widgets.text_codec) "list") ∅
    = Return PyNone
  ∧ wrapper Widgets.runtime 1
      (fst (new Widgets.create_class None ResourceApi_store))
      (snd (new Widgets.create_class None ResourceApi_store))
      ListUrl (Widgets.request_of "POST" "a widget")
    = mkResponse "" None (PyInt 204) ∅.
Proof.
  apply (create_post_answers_204 Widgets.runtime 0
           (fst (new Widgets.create_class None ResourceApi_store))
           (snd (new Widgets.create_class None ResourceApi_store))
           (Widgets.request_of "POST" "a widget") Widgets.text_codec
           (PyResource "widget" [("body", PyStr "a widget")])
           (PyResource "widget" [("body", PyStr "a widget")])).
  - reflexivity.
  - reflexivity.
  - simpl. apply list_elem_of_further, list_elem_of_here.
  - reflexivity.
  - reflexivity.
  - reflexivity.
  - reflexivity.
  - reflexivity.
Defined.

(** No class of the source binds [post_detail] or [put_detail]: the
    handlers of [UpdateMixin] are named [post_list] and [put_list]. *)
Lemma mro_lookup_update_names d self order name :
  name = "post_detail" ∨ name = "put_detail" →
  mro_lookup d self order name = None.
Proof.
  intros Hname. induction order as [|m rest IH]; simpl.
  - by destruct Hname as [-> | ->].
  - rewrite IH. by destruct Hname as [-> | ->]; destruct m.
Qed.

(** No [__init__] of the source appends [put]. *)
Lemma init_store_no_put order st :
  ("put" ∈ list_allowed_methods (init_store order st) →
   "put" ∈ list_allowed_methods st)
  ∧ ("put" ∈ detail_allowed_methods (init_store order st) →
     "put" ∈ detail_allowed_methods st).
Proof.
  induction order as [|m rest [IHl IHd]]; simpl; [done|].
  destruct m; simpl; split; try done.
  - intros [H|H]%elem_of_app; [by apply IHl|].
    by apply list_elem_of_singleton in H.
  - intros [H|H]%elem_of_app; [by apply IHd|].
    by apply list_elem_of_singleton in H.
  - intros [H|H]%elem_of_app; [by apply IHd|].
    by apply list_elem_of_singleton in H.
Qed.

(** C3, evaluated on the code: constructing an API of [UpdateMixin] whose
    [update_resource] is defined leaves the detail methods at [get] and
    [post], without [put]; the object has no attribute [post_detail] or
    [put_detail]; a POST on a detail URL is answered with 501 and a PUT with
    405, and neither reaches [update_resource]. *)
Theorem update_mixin_detail_unreachable :
  let made := new Widgets.update_class None ResourceApi_store in
  detail_allowed_methods (snd made) = ["get"; "post"]
  ∧ getattr_method (dispatch 0 (fst made) (snd made)) (fst made) "post_detail"
    = None
  ∧ getattr_method (dispatch 0 (fst made) (snd made)) (fst made) "put_detail"
    = None
  ∧ wrapper Widgets.runtime 1 (fst made) (snd made) (DetailUrl "1")
      (Widgets.request_of "POST" "a widget")
    = mkResponse "error: This method has not been implemented."
                 (Some "text/plain") (PyInt 501) ∅
  ∧ wrapper Widgets.runtime 1 (fst made) (snd made) (DetailUrl "1")
      (Widgets.request_of "PUT" "a widget")
    = mkResponse "error: Method not allowed" (Some "text/plain") (PyInt 405)
                 {["Allow" := "GET,POST"]}.
Proof.
  intros made. subst made.
  refine (conj _ (conj _ (conj _ (conj _ _)))).
  - reflexivity.
  - unfold getattr_method.
    rewrite mro_lookup_update_names by (by left). reflexivity.
  - unfold getattr_method.
    rewrite mro_lookup_update_names by (by right). reflexivity.
  - reflexivity.
  - reflexivity.
Qed.

(** ** The allowed-method lists *)

(** One run of the [__init__] chain appends [post] to the list methods once
    per [CreateMixin] in the resolution order, [post] to the detail methods
    once per [UpdateMixin] and [delete] once per [DeleteMixin]. *)
Lemma init_store_counts order st :
  count_occ string_dec (list_allowed_methods (init_store order st)) "post"
  = count_occ string_dec (list_allowed_methods st) "post"
    + count_occ Mixin_eq_dec order CreateMixin
  ∧ count_occ string_dec (detail_allowed_methods (init_store order st)) "post"
    = count_occ string_dec (detail_allowed_methods st) "post"
      + count_occ Mixin_eq_dec order UpdateMixin
  ∧ count_occ string_dec (detail_allowed_methods (init_store order st))
      "delete"
    = count_occ string_dec (detail_allowed_methods st) "delete"
      + count_occ Mixin_eq_dec order DeleteMixin.
Proof.
  induction order as [|m rest (IHc & IHu & IHd)]; simpl.
  - repeat split; lia.
  - destruct m; simpl; rewrite ?count_occ_app; simpl;
      refine (conj _ (conj _ _)); lia.
Qed.

Lemma new_many_counts c n st :
  count_occ string_dec (list_allowed_methods (new_many c n st)) "post"
  = count_occ string_dec (list_allowed_methods st) "post"
    + n * count_occ Mixin_eq_dec (mro c) CreateMixin
  ∧ count_occ string_dec (detail_allowed_methods (new_many c n st)) "post"
    = count_occ string_dec (detail_allowed_methods st) "post"
      + n * count_occ Mixin_eq_dec (mro c) UpdateMixin
  ∧ count_occ string_dec (detail_allowed_methods (new_many c n st)) "delete"
    = count_occ string_dec (detail_allowed_methods st) "delete"
      + n * count_occ Mixin_eq_dec (mro c) DeleteMixin.
Proof.
  induction n as [|k (IHc & IHu & IHd)]; simpl.
  - repeat split; lia.
  - destruct (init_store_counts (mro c) (new_many c k st)) as (Hc & Hu & Hd).
    refine (conj _ (conj _ _)); lia.
Qed.

(** A base class occurs once in a method resolution order. *)
Lemma mro_count_one (order : list Mixin) (m : Mixin) :
  NoDup order → m ∈ order → count_occ Mixin_eq_dec order m = 1.
Proof.
  intros Hnd Hin. apply NoDup_count_occ'; [by apply NoDup_ListNoDup|].
  by apply list_elem_of_In.
Qed.

(** C9: the allowed-method lists belong to the class and every instance, of
    whatever class, reads them there; each construction of an instance of a
    class deriving from [CreateMixin] appends [post] to the list methods
    once more, so that after [n] constructions [post] occurs [n] more times
    than before, [n] times when starting from the lists of [ResourceApi];
    likewise for [post] and [UpdateMixin], and for [delete] and
    [DeleteMixin], on the detail methods. *)
Theorem allowed_methods_grow_per_instance c n :
  NoDup (mro c) →
  (∀ self st,
     getattr_allowed_methods self st "list" = Some (list_allowed_methods st)
     ∧ getattr_allowed_methods self st "detail"
       = Some (detail_allowed_methods st))
  ∧ (CreateMixin ∈ mro c →
     (∀ st,
        count_occ string_dec (list_allowed_methods (new_many c n st)) "post"
        = count_occ string_dec (list_allowed_methods st) "post" + n)
     ∧ count_occ string_dec
         (list_allowed_methods (new_many c n ResourceApi_store)) "post" = n)
  ∧ (UpdateMixin ∈ mro c →
     (∀ st,
        count_occ string_dec (detail_allowed_methods (new_many c n st)) "post"
        = count_occ string_dec (detail_allowed_methods st) "post" + n)
     ∧ count_occ string_dec
         (detail_allowed_methods (new_many c n ResourceApi_store)) "post" = n)
  ∧ (DeleteMixin ∈ mro c →
     (∀ st,
        count_occ string_dec (detail_allowed_methods (new_many c n st))
          "delete"
        = count_occ string_dec (detail_allowed_methods st) "delete" + n)
     ∧ count_occ string_dec
         (detail_allowed_methods (new_many c n ResourceApi_store)) "delete"
       = n).
Proof.
  intros Hnd.
  refine (conj _ (conj _ (conj _ _))).
  - intros self st. split; reflexivity.
  - intros Hin.
    assert (∀ st,
      count_occ string_dec (list_allowed_methods (new_many c n st)) "post"
      = count_occ string_dec (list_allowed_methods st) "post" + n) as Hall.
    { intros st. destruct (new_many_counts c n st) as (-> & _).
      rewrite (mro_count_one _ _ Hnd Hin). lia. }
    split; [exact Hall|]. by rewrite Hall.
  - intros Hin.
    assert (∀ st,
      count_occ string_dec (detail_allowed_methods (new_many c n st)) "post"
      = count_occ string_dec (detail_allowed_methods st) "post" + n) as Hall.
    { intros st. destruct (new_many_counts c n st) as (_ & -> & _).
      rewrite (mro_count_one _ _ Hnd Hin). lia. }
    split; [exact Hall|]. by rewrite Hall.
  - intros Hin.
    assert (∀ st,
      count_occ string_dec (detail_allowed_methods (new_many c n st)) "delete"
      = count_occ string_dec (detail_allowed_methods st) "delete" + n)
      as Hall.
    { intros st. destruct (new_many_counts c n st) as (_ & _ & ->).
      rewrite (mro_count_one _ _ Hnd Hin). lia. }
    split; [exact Hall|]. by rewrite Hall.
Qed.

Lemma allowed_methods_grow_per_instance_witness :
  count_occ string_dec
    (list_allowed_methods
       (new_many (Widgets.widget_class [CreateMixin; UpdateMixin; DeleteMixin])
                 3 ResourceApi_store)) "post" = 3
  ∧ count_occ string_dec
      (detail_allowed_methods
         (new_many
            (Widgets.widget_class [CreateMixin; UpdateMixin; DeleteMixin])
            3 ResourceApi_store)) "post" = 3
  ∧ count_occ string_dec
      (detail_allowed_methods
         (new_many
            (Widgets.widget_class [CreateMixin; UpdateMixin; DeleteMixin])
            3 ResourceApi_store)) "delete" = 3.
Proof.
  assert (NoDup [CreateMixin; UpdateMixin; DeleteMixin]) as Hnd.
  { repeat apply NoDup_cons_2; try apply NoDup_nil_2;
      rewrite ?elem_of_cons, elem_of_nil; intuition discriminate. }
  destruct (allowed_methods_grow_per_instance
              (Widgets.widget_class [CreateMixin; UpdateMixin; DeleteMixin])
              3 Hnd) as (_ & Hc & Hu & Hd).
  refine (conj (proj2 (Hc _)) (conj (proj2 (Hu _)) (proj2 (Hd _)))).
  - apply list_elem_of_here.
  - apply list_elem_of_further, list_elem_of_here.
  - do 2 apply list_elem_of_further. apply list_elem_of_here.
Defined.

(** ** Content negotiation *)

(** Resolvers that answer [None] or the empty string are passed over. *)
Lemma first_content_type_skip before rest request :
  (∀ r, r ∈ before → r request = None ∨ r request = Some "") →
  first_content_type (before ++ rest)%list request
  = first_content_type rest request.
Proof.
  induction before as [|r0 before IH]; intros Hfalsy; [reflexivity|].
  simpl. destruct (Hfalsy r0 (list_elem_of_here _ _)) as [-> | ->]; simpl.
  - apply IH. intros r Hr. apply Hfalsy. by apply list_elem_of_further.
  - apply IH. intros r Hr. apply Hfalsy. by apply list_elem_of_further.
Qed.

(** X1: the resolvers are tried in the order of the class attribute, and
    the first one whose answer is neither [None] nor empty decides, whatever
    the later ones would say. *)
Theorem first_truthy_resolver_wins self request before r after ct :
  content_type_resolvers (cls self) = (before ++ r :: after)%list →
  (∀ r', r' ∈ before → r' request = None ∨ r' request = Some "") →
  r request = Some ct →
  ct ≠ "" →
  resolve_content_type self request = Some ct.
Proof.
  intros Hres Hfalsy Hr Hct. unfold resolve_content_type. rewrite Hres.
  rewrite first_content_type_skip by done. simpl. rewrite Hr.
  by rewrite bool_decide_eq_false_2.
Qed.

Lemma first_truthy_resolver_wins_witness :
  resolve_content_type
    (mkApi (mkApiClass "widget" None []
              [(λ _, None); (λ _, Some ""); Widgets.accepts_header;
               (λ _, Some "text/xml")]
              ∅ ∅ ∅ None None None None None None None) "widgets")
    (Widgets.request_of "GET" "")
  = Some "text/plain".
Proof.
  apply (first_truthy_resolver_wins _ _ [(λ _, None); (λ _, Some "")]
           Widgets.accepts_header [(λ _, Some "text/xml")]).
  - reflexivity.
  - intros r' Hr'. apply elem_of_cons in Hr' as [-> | Hr'].
    + by left.
    + apply list_elem_of_singleton in Hr' as ->. by right.
  - reflexivity.
  - discriminate.
Defined.

Lemma first_content_type_answers resolvers request :
  (first_content_type resolvers request = None
   ↔ ∀ r, r ∈ resolvers → r request = None ∨ r request = Some "")
  ∧ (∀ ct, first_content_type resolvers request = Some ct →
           ct ≠ "" ∧ ∃ r, r ∈ resolvers ∧ r request = Some ct).
Proof.
  induction resolvers as [|r0 rs [IHn IHs]].
  - split; [split|]; try done. intros _ r Hr. by apply elem_of_nil in Hr.
  - simpl. destruct (r0 request) as [ct0|] eqn:Hr0.
    + destruct (bool_decide (ct0 = "")) eqn:Hempty.
      * apply bool_decide_eq_true_1 in Hempty as ->.
        split; [split|].
        -- intros Hnone r [-> | Hr]%elem_of_cons; [by right|].
           by apply IHn.
        -- intros Hall. apply IHn. intros r Hr. apply Hall.
           by apply list_elem_of_further.
        -- intros ct Hct. destruct (IHs ct Hct) as (Hne & r & Hr & Heq).
           split; [done|]. exists r. split; [|done].
           by apply list_elem_of_further.
      * apply bool_decide_eq_false_1 in Hempty.
        split; [split|].
        -- discriminate.
        -- intros Hall.
           destruct (Hall r0 (list_elem_of_here _ _)) as [H | H];
             rewrite Hr0 in H; congruence.
        -- intros ct [= <-]. split; [done|]. exists r0.
           split; [apply list_elem_of_here | done].
    + split; [split|].
      * intros Hnone r [-> | Hr]%elem_of_cons; [by left|]. by apply IHn.
      * intros Hall. apply IHn. intros r Hr. apply Hall.
        by apply list_elem_of_further.
      * intros ct Hct. destruct (IHs ct Hct) as (Hne & r & Hr & Heq).
        split; [done|]. exists r. split; [|done].
        by apply list_elem_of_further.
Qed.

(** X2: [resolve_content_type] gives [None] exactly when every resolver
    answers [None] or the empty string, and otherwise gives the non-empty
    answer of one of the resolvers. *)
Theorem resolve_content_type_none_iff self request :
  (resolve_content_type self request = None
   ↔ ∀ r, r ∈ content_type_resolvers (cls self) →
          r request = None ∨ r request = Some "")
  ∧ (∀ ct, resolve_content_type self request = Some ct →
           ct ≠ "" ∧ ∃ r, r ∈ content_type_resolvers (cls self)
                          ∧ r request = Some ct).
Proof. apply first_content_type_answers. Qed.

(** X3: without a codec there is no dispatch at all: when every resolver
    passes, or when the resolved content type is not a key of
    [registered_codecs], the response is the plain 406 with its fixed text
    and no content type, whatever the URL, the verb and the class. *)
Theorem unresolved_content_type_answers_406 rt frames self st m request :
  (∀ r, r ∈ content_type_resolvers (cls self) →
        r request = None ∨ r request = Some "")
  ∨ (∃ ct, resolve_content_type self request = Some ct
           ∧ registered_codecs (cls self) !! ct = None) →
  wrapper rt frames self st m request
  = mkResponse "Content cannot be returned in the format requested."
               None (PyInt 406) ∅.
Proof.
  intros [Hall | (ct & Hct & Hreg)]; unfold wrapper.
  - unfold resolve_content_type.
    apply (proj1 (first_content_type_answers _ request)) in Hall.
    by rewrite Hall.
  - rewrite Hct. simpl. by rewrite Hreg.
Qed.

Lemma unresolved_content_type_answers_406_witness :
  wrapper Widgets.runtime 1 (mkApi Widgets.retrieve_class "widgets")
    ResourceApi_store (DetailUrl "1") (Gadgets.xml_request "GET")
  = mkResponse "Content cannot be returned in the format requested."
               None (PyInt 406) ∅
  ∧ wrapper Widgets.runtime 1
      (mkApi (mkApiClass "widget" None [] [] ∅ ∅ ∅
                         None None None None None None None) "widgets")
      ResourceApi_store ListUrl (Widgets.request_of "GET" "")
    = mkResponse "Content cannot be returned in the format requested."
                 None (PyInt 406) ∅.
Proof.
  split.
  - apply unresolved_content_type_answers_406. right.
    exists "text/xml". split; reflexivity.
  - apply unresolved_content_type_answers_406. left.
    intros r Hr. by apply elem_of_nil in Hr.
Defined.

(** ** More rows of the exception table *)

(** X4: an exception that no earlier clause names is answered with status
    500 and code 50000. With [settings.DEBUG] off the error carries the
    fixed message only, so that the response is the same for every such
    exception; with it on, the error also carries the text of the exception
    and the formatted stack trace. *)
Theorem unknown_exception_answers_500 rt frames self st m request c cl msg :
  codec_established self request c →
  callback frames self st m (set_codec request c) = Raise (Exception_ cl msg) →
  (DEBUG rt = false →
   wrapper rt frames self st m request
   = mkResponse
       (dumps c (PyError (mkError 500 50000
          "An unknown error has occurred, the developers have been notified."
          None None)))
       (Some (CONTENT_TYPE c)) (PyInt 500) ∅)
  ∧ (DEBUG rt = true →
     wrapper rt frames self st m request
     = mkResponse
         (dumps c (PyError (mkError 500 50000
            "An unknown error has occurred, the developers have been notified."
            (Some msg)
            (Some (MetaStr (join newline
                      (format_exception rt (Exception_ cl msg))))))))
         (Some (CONTENT_TYPE c)) (PyInt 500) ∅).
Proof.
  intros Hc Hraise.
  rewrite (wrapper_established _ _ _ _ _ _ c) by done.
  rewrite <- callback_dispatch, Hraise. simpl. unfold handle_500.
  split; by intros ->.
Qed.

Lemma unknown_exception_answers_500_witness :
  wrapper Widgets.runtime 1
    (mkApi (Widgets.widget_class [UpdateMixin; CreateMixin]) "widgets")
    (mkStore ["get"; "post"] ["get"; "post"]) ListUrl
    (Widgets.request_of "POST" "a widget")
  = mkResponse
      "error: An unknown error has occurred, the developers have been notified."
      (Some "text/plain") (PyInt 500) ∅
  ∧ wrapper Gadgets.debug_runtime 1
      (mkApi (Widgets.widget_class [UpdateMixin; CreateMixin]) "widgets")
      (mkStore ["get"; "post"] ["get"; "post"]) ListUrl
      (Widgets.request_of "POST" "a widget")
    = mkResponse
        (Widgets.render (PyError (mkError 500 50000
           "An unknown error has occurred, the developers have been notified."
           (Some "takes exactly 3 arguments")
           (Some (MetaStr (join newline ["Traceback"; "  boom"]))))))
        (Some "text/plain") (PyInt 500) ∅.
Proof.
  split.
  - exact (proj1 (unknown_exception_answers_500 Widgets.runtime 1
             (mkApi (Widgets.widget_class [UpdateMixin; CreateMixin])
                    "widgets")
             (mkStore ["get"; "post"] ["get"; "post"]) ListUrl
             (Widgets.request_of "POST" "a widget") Widgets.text_codec
             "TypeError" "takes exactly 3 arguments" eq_refl eq_refl)
           eq_refl).
  - exact (proj2 (unknown_exception_answers_500 Gadgets.debug_runtime 1
             (mkApi (Widgets.widget_class [UpdateMixin; CreateMixin])
                    "widgets")
             (mkStore ["get"; "post"] ["get"; "post"]) ListUrl
             (Widgets.request_of "POST" "a widget") Widgets.text_codec
             "TypeError" "takes exactly 3 arguments" eq_refl eq_refl)
           eq_refl).
Defined.

(** X5: the rows for [Http404] and [PermissionDenied]: whatever part of the
    dispatched view raises them, the answer is 404 with code 40400 and the
    text of the exception as message, and 403 with code 40300, the message
    "Permission denied" and the text of the exception as developer
    message. *)
Theorem not_found_and_denied_rows rt frames self st m request c msg :
  codec_established self request c →
  (callback frames self st m (set_codec request c) = Raise (Http404 msg) →
   wrapper rt frames self st m request
   = mkResponse (dumps c (PyError (mkError 404 40400 msg None None)))
                (Some (CONTENT_TYPE c)) (PyInt 404) ∅)
  ∧ (callback frames self st m (set_codec request c)
     = Raise (PermissionDenied msg) →
     wrapper rt frames self st m request
     = mkResponse
         (dumps c (PyError (mkError 403 40300 "Permission denied"
                              (Some msg) None)))
         (Some (CONTENT_TYPE c)) (PyInt 403) ∅).
Proof.
  intros Hc. rewrite (wrapper_established _ _ _ _ _ _ c) by done.
  rewrite <- callback_dispatch. split; by intros ->.
Qed.

Lemma not_found_and_denied_rows_witness :
  wrapper Widgets.runtime 1 (mkApi Gadgets.report_class "reports")
    ResourceApi_store (ListActionUrl "hidden") (Widgets.request_of "GET" "")
  = mkResponse "error: `reports` not found." (Some "text/plain")
               (PyInt 404) ∅
  ∧ wrapper Widgets.runtime 1 (mkApi Widgets.retrieve_class "widgets")
      ResourceApi_store (DetailUrl "403") (Widgets.request_of "GET" "")
    = mkResponse "error: Permission denied" (Some "text/plain")
                 (PyInt 403) ∅.
Proof.
  split.
  - exact (proj1 (not_found_and_denied_rows Widgets.runtime 1
             (mkApi Gadgets.report_class "reports") ResourceApi_store
             (ListActionUrl "hidden") (Widgets.request_of "GET" "")
             Widgets.text_codec "`reports` not found." eq_refl) eq_refl).
  - exact (proj2 (not_found_and_denied_rows Widgets.runtime 1
             (mkApi Widgets.retrieve_class "widgets") ResourceApi_store
             (DetailUrl "403") (Widgets.request_of "GET" "")
             Widgets.text_codec "not yours" eq_refl) eq_refl).
Defined.

(** X6: the not-found branch of [method_check] is taken when the
    allowed-methods attribute of the kind is bound to [None]: the answer is
    404 with code 40400 and a message that names the API, for every verb,
    and no handler is looked up. *)
Theorem none_entry_answers_404 rt frames self st m request c :
  codec_established self request c →
  getattr_allowed_methods self st (kind m) = None →
  wrapper rt (S frames) self st m request
  = mkResponse
      (dumps c (PyError (mkError 404 40400
                           ("`" +:+ api_name self +:+ "` not found.")
                           None None)))
      (Some (CONTENT_TYPE c)) (PyInt 404) ∅.
Proof.
  intros Hc Hnone.
  rewrite (wrapper_established _ _ _ _ _ _ c) by done.
  by rewrite (dispatch_none_entry _ _ _ _ _ _ Hnone).
Qed.

Lemma none_entry_answers_404_witness :
  wrapper Widgets.runtime 1 (mkApi Gadgets.report_class "reports")
    ResourceApi_store (ListActionUrl "hidden") (Widgets.request_of "GET" "")
  = mkResponse "error: `reports` not found." (Some "text/plain")
               (PyInt 404) ∅.
Proof.
  apply (none_entry_answers_404 Widgets.runtime 0
           (mkApi Gadgets.report_class "reports") ResourceApi_store
           (ListActionUrl "hidden") (Widgets.request_of "GET" "")
           Widgets.text_codec); reflexivity.
Defined.

(** X7: an [ImmediateHttpResponse] from the dispatched view is answered
    with its own status and exactly its headers, and its resource is always
    passed to the codec: a resource of [None] is encoded too, where a
    returned [None] would give an empty body. *)
Theorem immediate_response_is_encoded_as_is rt frames self st m request c
    res code hdrs :
  codec_established self request c →
  callback frames self st m (set_codec request c)
  = Raise (ImmediateHttpResponse res code hdrs) →
  wrapper rt frames self st m request
  = mkResponse (dumps c res) (Some (CONTENT_TYPE c)) code (default ∅ hdrs).
Proof.
  intros Hc Hraise.
  rewrite (wrapper_established _ _ _ _ _ _ c) by done.
  rewrite <- callback_dispatch, Hraise. apply respond_immediate.
Qed.

Lemma immediate_response_is_encoded_as_is_witness :
  wrapper Widgets.runtime 1 (mkApi Gadgets.report_class "reports")
    ResourceApi_store (ListActionUrl "teapot") (Widgets.request_of "GET" "")
  = mkResponse "null" (Some "text/plain") (PyInt 418) {["X-Pot" := "tea"]}.
Proof.
  exact (immediate_response_is_encoded_as_is Widgets.runtime 1
           (mkApi Gadgets.report_class "reports") ResourceApi_store
           (ListActionUrl "teapot") (Widgets.request_of "GET" "")
           Widgets.text_codec PyNone (PyInt 418)
           (Some {["X-Pot" := "tea"]}) eq_refl eq_refl).
Defined.

(** ** The post-dispatch hook *)

(** X8: with a post-dispatch hook defined, what [dispatch] returns is what
    the hook returns for the handler's result, [None] included; the hook
    sees the request with its kind set. *)
Theorem post_dispatch_result_is_returned frames self st request request_type
    kwargs allowed h kw result hook :
  getattr_allowed_methods self st request_type = Some allowed →
  lower (method request) ∈ allowed →
  getattr_method (dispatch frames self st) self
    (lower (method request) +:+ "_" +:+ request_type) = Some h →
  run_pre_dispatch self (set_type request request_type) kwargs = Return kw →
  h (set_type request request_type) kw = Return result →
  post_dispatch (cls self) = Some hook →
  dispatch (S frames) self st request request_type kwargs
  = hook (set_type request request_type) result.
Proof.
  intros Hallowed Hverb Hattr Hpre Hret Hhook.
  rewrite (dispatch_reaches_handler _ _ _ _ _ _ allowed h) by done.
  rewrite Hpre. simpl. rewrite Hret. simpl.
  unfold run_post_dispatch. by rewrite Hhook.
Qed.

Lemma post_dispatch_result_is_returned_witness :
  dispatch 1 (mkApi (Gadgets.gadget_class [ListMixin] (Some Gadgets.accepted))
                    "gadgets")
    ResourceApi_store (Widgets.request_of "GET" "") "list" ∅
  = Return (PyTuple
              [Listing [PyStr "a"; PyStr "b"; PyStr "c"; PyStr "d"; PyStr "e"]
                       50 0;
               PyInt 202]).
Proof.
  exact (post_dispatch_result_is_returned 0
           (mkApi (Gadgets.gadget_class [ListMixin] (Some Gadgets.accepted))
                  "gadgets")
           ResourceApi_store (Widgets.request_of "GET" "") "list" ∅ ["get"]
           (get_list (mkApi (Gadgets.gadget_class [ListMixin]
                                                  (Some Gadgets.accepted))
                            "gadgets"))
           ∅
           (Listing [PyStr "a"; PyStr "b"; PyStr "c"; PyStr "d"; PyStr "e"]
                    50 0)
           Gadgets.accepted eq_refl (list_elem_of_here "get" [])
           eq_refl eq_refl eq_refl eq_refl).
Defined.

(** ** Construction and the allowed-method lists *)

Lemma init_store_prefix order st :
  list_allowed_methods st `prefix_of` list_allowed_methods (init_store order st)
  ∧ detail_allowed_methods st
    `prefix_of` detail_allowed_methods (init_store order st).
Proof.
  induction order as [|m rest [IHl IHd]]; [done|].
  destruct m; simpl; split; try done; by apply prefix_app_r.
Qed.

Lemma init_store_added order st :
  (∀ v, v ∈ list_allowed_methods (init_store order st) →
        v ∈ list_allowed_methods st ∨ v = "post")
  ∧ (∀ v, v ∈ detail_allowed_methods (init_store order st) →
          v ∈ detail_allowed_methods st ∨ v = "post" ∨ v = "delete").
Proof.
  induction order as [|m rest [IHl IHd]]; simpl; [by split; intros; left|].
  destruct m; simpl; split; try done.
  - intros v [H | H%list_elem_of_singleton]%elem_of_app; [by apply IHl|].
    by right.
  - intros v [H | H%list_elem_of_singleton]%elem_of_app; [by apply IHd|].
    right. by left.
  - intros v [H | H%list_elem_of_singleton]%elem_of_app; [by apply IHd|].
    right. by right.
Qed.

(** X9: constructing instances only ever appends: the lists as they were
    stay a prefix of the lists afterwards, and the only verbs that any number
    of constructions adds are [post] on the list methods and [post] and
    [delete] on the detail methods. Nothing is removed and [put] is never
    added. *)
Theorem constructions_only_append c n st :
  list_allowed_methods st `prefix_of` list_allowed_methods (new_many c n st)
  ∧ detail_allowed_methods st
    `prefix_of` detail_allowed_methods (new_many c n st)
  ∧ (∀ v, v ∈ list_allowed_methods (new_many c n st) →
          v ∈ list_allowed_methods st ∨ v = "post")
  ∧ (∀ v, v ∈ detail_allowed_methods (new_many c n st) →
          v ∈ detail_allowed_methods st ∨ v = "post" ∨ v = "delete").
Proof.
  induction n as [|k (IHl & IHd & IHal & IHad)]; simpl.
  - repeat split; try done; intros; by left.
  - destruct (init_store_prefix (mro c) (new_many c k st)) as [Hl Hd].
    destruct (init_store_added (mro c) (new_many c k st)) as [Hal Had].
    refine (conj _ (conj _ (conj _ _))).
    + by etrans.
    + by etrans.
    + intros v [H | H]%Hal; [by apply IHal | by right].
    + intros v [H | H]%Had; [by apply IHad | by right].
Qed.

(** ** The mixins from construction to response *)

(** Bases that do not bind a name are passed over by the lookup. *)
Lemma mro_lookup_skip d self before rest name :
  (∀ m, m ∈ before → mixin_method self m name = None) →
  mro_lookup d self (before ++ rest)%list name = mro_lookup d self rest name.
Proof.
  induction before as [|m0 before IH]; intros Hnone; [reflexivity|].
  simpl. rewrite (Hnone m0 (list_elem_of_here _ _)).
  apply IH. intros m Hm. apply Hnone. by apply list_elem_of_further.
Qed.

(** [get_list], [get_detail] and [delete_detail] are each bound by one
    mixin only, so that deriving from it anywhere in the order is enough. *)
Lemma mro_lookup_single d self order :
  (ListMixin ∈ order →
   mro_lookup d self order "get_list" = Some (get_list self))
  ∧ (RetrieveMixin ∈ order →
     mro_lookup d self order "get_detail" = Some (get_detail self))
  ∧ (DeleteMixin ∈ order →
     mro_lookup d self order "delete_detail" = Some (delete_detail self)).
Proof.
  induction order as [|m rest (IHl & IHr & IHd)].
  - repeat split; intros H; by apply elem_of_nil in H.
  - refine (conj _ (conj _ _)); intros [<- | H]%elem_of_cons; try done;
      destruct m; simpl; auto.
Qed.

(** Each mixin with an [__init__] leaves its verb in the list. *)
Lemma init_store_registers order st :
  (CreateMixin ∈ order → "post" ∈ list_allowed_methods (init_store order st))
  ∧ (UpdateMixin ∈ order →
     "post" ∈ detail_allowed_methods (init_store order st))
  ∧ (DeleteMixin ∈ order →
     "delete" ∈ detail_allowed_methods (init_store order st)).
Proof.
  induction order as [|m rest (IHc & IHu & IHd)].
  - repeat split; intros H; by apply elem_of_nil in H.
  - refine (conj _ (conj _ _)); intros [<- | H]%elem_of_cons; simpl;
      try (apply elem_of_app; right; apply list_elem_of_here);
      destruct m; simpl; auto; apply elem_of_app; left; auto.
Qed.

Lemma new_cls c name st : cls (fst (new c name st)) = c.
Proof.
  unfold new, ResourceApiBase_init. simpl.
  destruct name as [n|]; [destruct (bool_decide (n = ""))|]; reflexivity.
Qed.

Lemma only_resource_id_of_url resource_id :
  only_resource_id {["resource_id" := PyStr resource_id]}
  = Return (PyStr resource_id).
Proof. reflexivity. Qed.

(** X10: a class that derives from [DeleteMixin], anywhere among its
    bases, and defines no [delete_detail] of its own and no hooks: once an
    instance is constructed, a DELETE on a detail URL is allowed and the
    response is made from what [delete_resource] does with the identifier
    captured from the URL, passed as a string. *)
Theorem delete_reaches_delete_resource rt frames c name st resource_id
    request cd :
  DeleteMixin ∈ mro c →
  methods c !! "delete_detail" = None →
  pre_dispatch c = None →
  post_dispatch c = None →
  lower (method request) = "delete" →
  codec_established (fst (new c name st)) request cd →
  wrapper rt (S frames) (fst (new c name st)) (snd (new c name st))
          (DetailUrl resource_id) request
  = respond rt cd (set_codec request cd)
      (delete_resource (fst (new c name st))
         (set_type (set_codec request cd) "detail") (PyStr resource_id)).
Proof.
  intros Hin Hown Hpre Hpost Hverb Hc.
  pose proof (new_cls c name st) as Hcls.
  pose proof (proj2 (proj2 (init_store_registers (mro c) st)) Hin) as Hreg.
  change (init_store (mro c) st) with (snd (new c name st)) in Hreg.
  set (self := fst (new c name st)) in *.
  set (st' := snd (new c name st)) in *. clearbody self st'.
  rewrite (wrapper_established _ _ _ _ _ _ cd) by done.
  f_equal.
  rewrite (dispatch_reaches_handler _ _ _ _ _ _
             (detail_allowed_methods st') (delete_detail self)).
  - unfold run_pre_dispatch, run_post_dispatch. rewrite Hcls, Hpre, Hpost.
    simpl. unfold delete_detail. rewrite only_resource_id_of_url. simpl.
    by destruct (delete_resource _ _ _).
  - reflexivity.
  - change (method (set_codec request cd)) with (method request).
    by rewrite Hverb.
  - change (method (set_codec request cd)) with (method request).
    rewrite Hverb.
    change ("delete" +:+ "_" +:+ kind (DetailUrl resource_id))
      with "delete_detail".
    unfold getattr_method. rewrite Hcls, Hown.
    by apply mro_lookup_single.
Qed.

Lemma delete_reaches_delete_resource_witness :
  wrapper Widgets.runtime 1
    (fst (new (Gadgets.gadget_class [ListMixin; DeleteMixin] None) None
              ResourceApi_store))
    (snd (new (Gadgets.gadget_class [ListMixin; DeleteMixin] None) None
              ResourceApi_store))
    (DetailUrl "7") (Widgets.request_of "DELETE" "")
  = mkResponse "" None (PyInt 204) ∅.
Proof.
  exact (delete_reaches_delete_resource Widgets.runtime 0
           (Gadgets.gadget_class [ListMixin; DeleteMixin] None) None
           ResourceApi_store "7" (Widgets.request_of "DELETE" "")
           Widgets.text_codec
           (list_elem_of_further _ _ _ (list_elem_of_here _ _))
           eq_refl eq_refl eq_refl eq_refl eq_refl).
Defined.

(** Without hooks the response is made from the handler's outcome on the
    keyword arguments of the URL. *)
Lemma wrapper_runs_handler rt frames self st m request cd allowed h :
  codec_established self request cd →
  getattr_allowed_methods self st (kind m) = Some allowed →
  lower (method request) ∈ allowed →
  getattr_method (dispatch frames self st) self
    (lower (method request) +:+ "_" +:+ kind m) = Some h →
  pre_dispatch (cls self) = None →
  post_dispatch (cls self) = None →
  wrapper rt (S frames) self st m request
  = respond rt cd (set_codec request cd)
      (h (set_type (set_codec request cd) (kind m)) (url_kwargs m)).
Proof.
  intros Hc Hallowed Hverb Hattr Hpre Hpost.
  rewrite (wrapper_established _ _ _ _ _ _ cd) by done.
  f_equal.
  rewrite (dispatch_reaches_handler _ _ _ _ _ _ allowed h) by done.
  unfold run_pre_dispatch, run_post_dispatch. rewrite Hpre, Hpost. simpl.
  by destruct (h _ _).
Qed.

(** X11: a class that derives from [RetrieveMixin] and defines no
    [get_detail] of its own and no hooks answers a GET on a detail URL, as
    long as [get] is among the detail methods, with what [retrieve_resource]
    does with the identifier of the URL, passed as a string. *)
Theorem get_reaches_retrieve_resource rt frames self st resource_id request
    cd :
  RetrieveMixin ∈ mro (cls self) →
  methods (cls self) !! "get_detail" = None →
  pre_dispatch (cls self) = None →
  post_dispatch (cls self) = None →
  "get" ∈ detail_allowed_methods st →
  lower (method request) = "get" →
  codec_established self request cd →
  wrapper rt (S frames) self st (DetailUrl resource_id) request
  = respond rt cd (set_codec request cd)
      (retrieve_resource self (set_type (set_codec request cd) "detail")
         (PyStr resource_id)).
Proof.
  intros Hin Hown Hpre Hpost Hget Hverb Hc.
  rewrite (wrapper_runs_handler _ _ _ _ _ _ cd (detail_allowed_methods st)
             (get_detail self)); try done.
  - by rewrite Hverb.
  - rewrite Hverb.
    change ("get" +:+ "_" +:+ kind (DetailUrl resource_id)) with "get_detail".
    unfold getattr_method. rewrite Hown. by apply mro_lookup_single.
Qed.

Lemma get_reaches_retrieve_resource_witness :
  wrapper Widgets.runtime 1
    (mkApi (Gadgets.gadget_class [DeleteMixin; RetrieveMixin] None) "gadgets")
    ResourceApi_store (DetailUrl "9") (Widgets.request_of "GET" "")
  = mkResponse "resource" (Some "text/plain") (PyInt 200) ∅.
Proof.
  exact (get_reaches_retrieve_resource Widgets.runtime 0
           (mkApi (Gadgets.gadget_class [DeleteMixin; RetrieveMixin] None)
                  "gadgets")
           ResourceApi_store "9" (Widgets.request_of "GET" "")
           Widgets.text_codec
           (list_elem_of_further _ _ _ (list_elem_of_here _ _))
           eq_refl eq_refl eq_refl (list_elem_of_here _ _) eq_refl eq_refl).
Defined.

(** X12: a class that derives from [ListMixin] answers a GET on the list
    URL with a [Listing]: [offset] and [limit] are read from the query
    string, 0 and 50 when absent, and handed to [list_resources]; the
    listing holds everything that [list_resources] returned, however many
    items that is, beside the limit and the offset that were asked for. *)
Theorem get_list_wraps_list_resources rt frames self st request cd offset
    limit items :
  ListMixin ∈ mro (cls self) →
  methods (cls self) !! "get_list" = None →
  pre_dispatch (cls self) = None →
  post_dispatch (cls self) = None →
  "get" ∈ list_allowed_methods st →
  lower (method request) = "get" →
  codec_established self request cd →
  match GET request !! "offset" with
  | Some s => int s
  | None => Return 0%Z
  end = Return offset →
  match GET request !! "limit" with
  | Some s => int s
  | None => Return 50%Z
  end = Return limit →
  list_resources self (set_type (set_codec request cd) "list") offset limit
  = Return items →
  wrapper rt (S frames) self st ListUrl request
  = mkResponse (dumps cd (Listing items limit offset))
               (Some (CONTENT_TYPE cd)) (PyInt 200) ∅.
Proof.
  intros Hin Hown Hpre Hpost Hget Hverb Hc Hoffset Hlimit Hitems.
  rewrite (wrapper_runs_handler _ _ _ _ _ _ cd (list_allowed_methods st)
             (get_list self)); try done.
  - unfold get_list. simpl. rewrite Hoffset. simpl. rewrite Hlimit. simpl.
    by rewrite Hitems.
  - by rewrite Hverb.
  - rewrite Hverb. change ("get" +:+ "_" +:+ kind ListUrl) with "get_list".
    unfold getattr_method. rewrite Hown. by apply mro_lookup_single.
Qed.

Lemma get_list_wraps_list_resources_witness :
  wrapper Widgets.runtime 1
    (mkApi (Gadgets.gadget_class [ListMixin] None) "gadgets")
    ResourceApi_store ListUrl
    (mkRequest "GET" {["HTTP_ACCEPT" := "text/plain"]}
               {["offset" := "0"; "limit" := "2"]} "" None None)
  = mkResponse
      (Widgets.render
         (Listing [PyStr "a"; PyStr "b"; PyStr "c"; PyStr "d"; PyStr "e"]
                  2 0))
      (Some "text/plain") (PyInt 200) ∅
  ∧ wrapper Widgets.runtime 1
      (mkApi (Gadgets.gadget_class [ListMixin] None) "gadgets")
      ResourceApi_store ListUrl (Widgets.request_of "GET" "")
    = mkResponse
        (Widgets.render
           (Listing [PyStr "a"; PyStr "b"; PyStr "c"; PyStr "d"; PyStr "e"]
                    50 0))
        (Some "text/plain") (PyInt 200) ∅.
Proof.
  split.
  - exact (get_list_wraps_list_resources Widgets.runtime 0
             (mkApi (Gadgets.gadget_class [ListMixin] None) "gadgets")
             ResourceApi_store
             (mkRequest "GET" {["HTTP_ACCEPT" := "text/plain"]}
                        {["offset" := "0"; "limit" := "2"]} "" None None)
             Widgets.text_codec 0 2
             [PyStr "a"; PyStr "b"; PyStr "c"; PyStr "d"; PyStr "e"]
             (list_elem_of_here _ _) eq_refl eq_refl eq_refl
             (list_elem_of_here _ _) eq_refl eq_refl eq_refl eq_refl eq_refl).
  - exact (get_list_wraps_list_resources Widgets.runtime 0
             (mkApi (Gadgets.gadget_class [ListMixin] None) "gadgets")
             ResourceApi_store (Widgets.request_of "GET" "")
             Widgets.text_codec 0 50
             [PyStr "a"; PyStr "b"; PyStr "c"; PyStr "d"; PyStr "e"]
             (list_elem_of_here _ _) eq_refl eq_refl eq_refl
             (list_elem_of_here _ _) eq_refl eq_refl eq_refl eq_refl eq_refl).
Defined.

(** X13: deriving from a mixin without defining its delegate leaves the
    body of the mixin, [raise NotImplementedError]: an allowed GET on the
    list URL of a [ListMixin] class without [list_resources], an allowed GET
    on a detail URL of a [RetrieveMixin] class without [retrieve_resource]
    and an allowed DELETE on a detail URL of a [DeleteMixin] class without
    [delete_resource] are each answered with 501 and code 50100. *)
Theorem unimplemented_delegate_answers_501 rt frames self st request cd :
  codec_established self request cd →
  pre_dispatch (cls self) = None →
  post_dispatch (cls self) = None →
  (ListMixin ∈ mro (cls self) →
   methods (cls self) !! "get_list" = None →
   list_resources_def (cls self) = None →
   "get" ∈ list_allowed_methods st →
   lower (method request) = "get" →
   GET request !! "offset" = None →
   GET request !! "limit" = None →
   wrapper rt (S frames) self st ListUrl request
   = mkResponse
       (dumps cd (PyError (mkError 501 50100
                             "This method has not been implemented."
                             None None)))
       (Some (CONTENT_TYPE cd)) (PyInt 501) ∅)
  ∧ (∀ resource_id,
       RetrieveMixin ∈ mro (cls self) →
       methods (cls self) !! "get_detail" = None →
       retrieve_resource_def (cls self) = None →
       "get" ∈ detail_allowed_methods st →
       lower (method request) = "get" →
       wrapper rt (S frames) self st (DetailUrl resource_id) request
       = mkResponse
           (dumps cd (PyError (mkError 501 50100
                                 "This method has not been implemented."
                                 None None)))
           (Some (CONTENT_TYPE cd)) (PyInt 501) ∅)
  ∧ (∀ resource_id,
       DeleteMixin ∈ mro (cls self) →
       methods (cls self) !! "delete_detail" = None →
       delete_resource_def (cls self) = None →
       "delete" ∈ detail_allowed_methods st →
       lower (method request) = "delete" →
       wrapper rt (S frames) self st (DetailUrl resource_id) request
       = mkResponse
           (dumps cd (PyError (mkError 501 50100
                                 "This method has not been implemented."
                                 None None)))
           (Some (CONTENT_TYPE cd)) (PyInt 501) ∅).
Proof.
  intros Hc Hpre Hpost. refine (conj _ (conj _ _)).
  - intros Hin Hown Hdef Hget Hverb Hoffset Hlimit.
    rewrite (wrapper_runs_handler _ _ _ _ _ _ cd (list_allowed_methods st)
               (get_list self)); try done.
    + unfold get_list, list_resources. simpl.
      by rewrite Hoffset, Hlimit, Hdef.
    + by rewrite Hverb.
    + rewrite Hverb. change ("get" +:+ "_" +:+ kind ListUrl) with "get_list".
      unfold getattr_method. rewrite Hown. by apply mro_lookup_single.
  - intros resource_id Hin Hown Hdef Hget Hverb.
    rewrite (wrapper_runs_handler _ _ _ _ _ _ cd (detail_allowed_methods st)
               (get_detail self)); try done.
    + unfold get_detail, retrieve_resource.
      change (url_kwargs (DetailUrl resource_id))
        with ({["resource_id" := PyStr resource_id]} : Kwargs).
      rewrite only_resource_id_of_url. simpl. by rewrite Hdef.
    + by rewrite Hverb.
    + rewrite Hverb.
      change ("get" +:+ "_" +:+ kind (DetailUrl resource_id))
        with "get_detail".
      unfold getattr_method. rewrite Hown. by apply mro_lookup_single.
  - intros resource_id Hin Hown Hdef Hdel Hverb.
    rewrite (wrapper_runs_handler _ _ _ _ _ _ cd (detail_allowed_methods st)
               (delete_detail self)); try done.
    + unfold delete_detail, delete_resource.
      change (url_kwargs (DetailUrl resource_id))
        with ({["resource_id" := PyStr resource_id]} : Kwargs).
      rewrite only_resource_id_of_url. simpl. by rewrite Hdef.
    + by rewrite Hverb.
    + rewrite Hverb.
      change ("delete" +:+ "_" +:+ kind (DetailUrl resource_id))
        with "delete_detail".
      unfold getattr_method. rewrite Hown. by apply mro_lookup_single.
Qed.

Lemma unimplemented_delegate_answers_501_witness :
  wrapper Widgets.runtime 1
    (mkApi (Widgets.widget_class [ListMixin; RetrieveMixin; DeleteMixin])
           "widgets")
    (mkStore ["get"] ["get"; "delete"]) ListUrl (Widgets.request_of "GET" "")
  = mkResponse "error: This method has not been implemented."
               (Some "text/plain") (PyInt 501) ∅
  ∧ wrapper Widgets.runtime 1
      (mkApi (Widgets.widget_class [ListMixin; RetrieveMixin; DeleteMixin])
             "widgets")
      (mkStore ["get"] ["get"; "delete"]) (DetailUrl "3")
      (Widgets.request_of "GET" "")
    = mkResponse "error: This method has not been implemented."
                 (Some "text/plain") (PyInt 501) ∅
  ∧ wrapper Widgets.runtime 1
      (mkApi (Widgets.widget_class [ListMixin; RetrieveMixin; DeleteMixin])
             "widgets")
      (mkStore ["get"] ["get"; "delete"]) (DetailUrl "3")
      (Widgets.request_of "DELETE" "")
    = mkResponse "error: This method has not been implemented."
                 (Some "text/plain") (PyInt 501) ∅.
Proof.
  refine (conj _ (conj _ _)).
  - exact (proj1 (unimplemented_delegate_answers_501 Widgets.runtime 0
             (mkApi (Widgets.widget_class
                       [ListMixin; RetrieveMixin; DeleteMixin]) "widgets")
             (mkStore ["get"] ["get"; "delete"])
             (Widgets.request_of "GET" "") Widgets.text_codec
             eq_refl eq_refl eq_refl)
           (list_elem_of_here _ _) eq_refl eq_refl (list_elem_of_here _ _)
           eq_refl eq_refl eq_refl).
  - exact (proj1 (proj2 (unimplemented_delegate_answers_501 Widgets.runtime 0
             (mkApi (Widgets.widget_class
                       [ListMixin; RetrieveMixin; DeleteMixin]) "widgets")
             (mkStore ["get"] ["get"; "delete"])
             (Widgets.request_of "GET" "") Widgets.text_codec
             eq_refl eq_refl eq_refl))
           "3" (list_elem_of_further _ _ _ (list_elem_of_here _ _))
           eq_refl eq_refl (list_elem_of_here _ _) eq_refl).
  - exact (proj2 (proj2 (unimplemented_delegate_answers_501 Widgets.runtime 0
             (mkApi (Widgets.widget_class
                       [ListMixin; RetrieveMixin; DeleteMixin]) "widgets")
             (mkStore ["get"] ["get"; "delete"])
             (Widgets.request_of "DELETE" "") Widgets.text_codec
             eq_refl eq_refl eq_refl))
           "3"
           (list_elem_of_further _ _ _
              (list_elem_of_further _ _ _ (list_elem_of_here _ _)))
           eq_refl eq_refl
           (list_elem_of_further _ _ _ (list_elem_of_here _ _)) eq_refl).
Defined.

Lemma only_resource_id_empty :
  only_resource_id ∅ = Raise (TypeError "takes exactly 3 arguments").
Proof. reflexivity. Qed.

(** The first base that binds [post_list] or [put_list] decides which
    handler a POST or PUT on the list URL gets. *)
Lemma mro_lookup_first_binder d self before m after name :
  name = "post_list" ∨ name = "put_list" →
  (∀ m', m' ∈ before → m' ≠ CreateMixin ∧ m' ≠ UpdateMixin) →
  m = CreateMixin ∨ m = UpdateMixin →
  mro_lookup d self (before ++ m :: after)%list name
  = mixin_method self m name.
Proof.
  intros Hname Hbefore Hm. rewrite mro_lookup_skip.
  - simpl. by destruct Hname as [-> | ->], Hm as [-> | ->].
  - intros m' Hm'. destruct (Hbefore m' Hm') as [Hc Hu].
    by destruct Hname as [-> | ->], m'.
Qed.

(** X14: the order of the bases matters. When [UpdateMixin] comes before
    [CreateMixin] among the bases, or without it, [post_list] is the handler
    of [UpdateMixin], which needs a [resource_id] that the list URL does not
    capture: an allowed POST on the list URL raises [TypeError] and is
    answered with 500; [create_resource] is not reached. *)
Theorem update_before_create_breaks_post rt frames self st request cd before
    after :
  mro (cls self) = (before ++ UpdateMixin :: after)%list →
  (∀ m, m ∈ before → m ≠ CreateMixin ∧ m ≠ UpdateMixin) →
  methods (cls self) !! "post_list" = None →
  pre_dispatch (cls self) = None →
  post_dispatch (cls self) = None →
  "post" ∈ list_allowed_methods st →
  lower (method request) = "post" →
  codec_established self request cd →
  (∃ msg, dispatch (S frames) self st (set_codec request cd) "list" ∅
          = Raise (TypeError msg))
  ∧ status_code (wrapper rt (S frames) self st ListUrl request) = PyInt 500.
Proof.
  intros Hmro Hbefore Hown Hpre Hpost Hallowed Hverb Hc.
  assert (getattr_method (dispatch frames self st) self
            (lower (method (set_codec request cd)) +:+ "_" +:+ "list")
          = Some (UpdateMixin_post_list self)) as Hattr.
  { change (method (set_codec request cd)) with (method request).
    rewrite Hverb. change ("post" +:+ "_" +:+ "list") with "post_list".
    unfold getattr_method. rewrite Hown, Hmro.
    rewrite mro_lookup_first_binder; auto. }
  split.
  - exists "takes exactly 3 arguments".
    rewrite (dispatch_reaches_handler _ _ _ _ _ _ (list_allowed_methods st)
               (UpdateMixin_post_list self)); try done.
    + unfold run_pre_dispatch. rewrite Hpre. simpl.
      unfold UpdateMixin_post_list. by rewrite only_resource_id_empty.
    + change (method (set_codec request cd)) with (method request).
      by rewrite Hverb.
  - rewrite (wrapper_runs_handler _ _ _ _ _ _ cd (list_allowed_methods st)
               (UpdateMixin_post_list self)); try done.
    + unfold UpdateMixin_post_list.
      change (url_kwargs ListUrl) with (∅ : Kwargs).
      rewrite only_resource_id_empty. simpl.
      unfold handle_500. by destruct (DEBUG rt).
    + by rewrite Hverb.
Qed.

Lemma update_before_create_breaks_post_witness :
  (∃ msg,
     dispatch 1
       (mkApi (Gadgets.gadget_class [ListMixin; UpdateMixin; CreateMixin] None)
              "gadgets")
       (mkStore ["get"; "post"] ["get"; "post"])
       (set_codec (Widgets.request_of "POST" "a gadget") Widgets.text_codec)
       "list" ∅
     = Raise (TypeError msg))
  ∧ status_code
      (wrapper Widgets.runtime 1
         (mkApi (Gadgets.gadget_class [ListMixin; UpdateMixin; CreateMixin]
                                      None) "gadgets")
         (mkStore ["get"; "post"] ["get"; "post"]) ListUrl
         (Widgets.request_of "POST" "a gadget"))
    = PyInt 500.
Proof.
  apply (update_before_create_breaks_post Widgets.runtime 0
           (mkApi (Gadgets.gadget_class [ListMixin; UpdateMixin; CreateMixin]
                                        None) "gadgets")
           (mkStore ["get"; "post"] ["get"; "post"])
           (Widgets.request_of "POST" "a gadget") Widgets.text_codec
           [ListMixin] [CreateMixin]).
  - reflexivity.
  - intros m Hm. apply list_elem_of_singleton in Hm as ->.
    split; discriminate.
  - reflexivity.
  - reflexivity.
  - reflexivity.
  - apply list_elem_of_further, list_elem_of_here.
  - reflexivity.
  - reflexivity.
Defined.

(** X15: when [CreateMixin] is the first base that binds [put_list] and
    the class lists [put] among the list methods itself, a PUT on the list
    URL decodes the body and is answered with what [create_resource] does
    with the decoded resource and [is_complete = True]: unlike for POST, the
    result of [create_resource] is the result of the handler. *)
Theorem put_create_returns_result rt frames self st request cd before after
    res :
  mro (cls self) = (before ++ CreateMixin :: after)%list →
  (∀ m, m ∈ before → m ≠ CreateMixin ∧ m ≠ UpdateMixin) →
  methods (cls self) !! "put_list" = None →
  pre_dispatch (cls self) = None →
  post_dispatch (cls self) = None →
  "put" ∈ list_allowed_methods st →
  lower (method request) = "put" →
  codec_established self request cd →
  loads cd (data request) (resource (cls self)) = Return res →
  wrapper rt (S frames) self st ListUrl request
  = respond rt cd (set_codec request cd)
      (create_resource self (set_type (set_codec request cd) "list") res true).
Proof.
  intros Hmro Hbefore Hown Hpre Hpost Hallowed Hverb Hc Hloads.
  rewrite (wrapper_runs_handler _ _ _ _ _ _ cd (list_allowed_methods st)
             (CreateMixin_put_list self)); try done.
  - unfold CreateMixin_put_list. simpl. by rewrite Hloads.
  - by rewrite Hverb.
  - rewrite Hverb. change ("put" +:+ "_" +:+ kind ListUrl) with "put_list".
    unfold getattr_method. rewrite Hown, Hmro.
    rewrite mro_lookup_first_binder; auto.
Qed.

Lemma put_create_returns_result_witness :
  wrapper Widgets.runtime 1 (mkApi Widgets.create_class "widgets")
    (mkStore ["get"; "post"; "put"] ["get"]) ListUrl
    (Widgets.request_of "PUT" "a widget")
  = mkResponse "resource" (Some "text/plain") (PyInt 200) ∅.
Proof.
  apply (put_create_returns_result Widgets.runtime 0
           (mkApi Widgets.create_class "widgets")
           (mkStore ["get"; "post"; "put"] ["get"])
           (Widgets.request_of "PUT" "a widget") Widgets.text_codec
           [] [] (PyResource "widget" [("body", PyStr "a widget")])).
  - reflexivity.
  - intros m Hm. by apply elem_of_nil in Hm.
  - reflexivity.
  - reflexivity.
  - reflexivity.
  - do 2 apply list_elem_of_further. apply list_elem_of_here.
  - reflexivity.
  - reflexivity.
  - reflexivity.
Defined.

(** X16: the body is decoded before the delegate is called: when the codec
    fails on the body of a POST or PUT that reaches a handler of
    [CreateMixin], the response is the one of the table for the exception of
    the codec, whatever [create_resource] is. *)
Theorem undecodable_body_skips_create rt frames self st request cd before
    after e :
  mro (cls self) = (before ++ CreateMixin :: after)%list →
  (∀ m, m ∈ before → m ≠ CreateMixin ∧ m ≠ UpdateMixin) →
  methods (cls self) !! (lower (method request) +:+ "_list") = None →
  pre_dispatch (cls self) = None →
  post_dispatch (cls self) = None →
  lower (method request) ∈ list_allowed_methods st →
  lower (method request) = "post" ∨ lower (method request) = "put" →
  codec_established self request cd →
  loads cd (data request) (resource (cls self)) = Raise e →
  wrapper rt (S frames) self st ListUrl request
  = respond rt cd (set_codec request cd) (Raise e).
Proof.
  intros Hmro Hbefore Hown Hpre Hpost Hallowed Hverb Hc Hloads.
  destruct Hverb as [Hverb | Hverb]; rewrite Hverb in *.
  - change ("post" +:+ "_list") with "post_list" in Hown.
    rewrite (wrapper_runs_handler _ _ _ _ _ _ cd (list_allowed_methods st)
               (CreateMixin_post_list self)); try done.
    + unfold CreateMixin_post_list. simpl. by rewrite Hloads.
    + by rewrite Hverb.
    + rewrite Hverb.
      change ("post" +:+ "_" +:+ kind ListUrl) with "post_list".
      unfold getattr_method. rewrite Hown, Hmro.
      rewrite mro_lookup_first_binder; auto.
  - change ("put" +:+ "_list") with "put_list" in Hown.
    rewrite (wrapper_runs_handler _ _ _ _ _ _ cd (list_allowed_methods st)
               (CreateMixin_put_list self)); try done.
    + unfold CreateMixin_put_list. simpl. by rewrite Hloads.
    + by rewrite Hverb.
    + rewrite Hverb. change ("put" +:+ "_" +:+ kind ListUrl) with "put_list".
      unfold getattr_method. rewrite Hown, Hmro.
      rewrite mro_lookup_first_binder; auto.
Qed.

Lemma undecodable_body_skips_create_witness :
  wrapper Widgets.runtime 1 (mkApi Gadgets.strict_class "gadgets")
    (mkStore ["get"; "post"] ["get"]) ListUrl (Widgets.request_of "POST" "")
  = mkResponse
      "error: An unknown error has occurred, the developers have been notified."
      (Some "text/strict") (PyInt 500) ∅.
Proof.
  apply (undecodable_body_skips_create Widgets.runtime 0
           (mkApi Gadgets.strict_class "gadgets")
           (mkStore ["get"; "post"] ["get"])
           (Widgets.request_of "POST" "") Gadgets.strict_codec [] []
           (Exception_ "CodecDecodeError" "Unable to decode the body")).
  - reflexivity.
  - intros m Hm. by apply elem_of_nil in Hm.
  - reflexivity.
  - reflexivity.
  - reflexivity.
  - apply list_elem_of_further, list_elem_of_here.
  - by left.
  - reflexivity.
  - reflexivity.
Defined.

(** ** Actions *)

(** The kind of an action URL is never [list] or [detail]. *)
Lemma action_kind_is_not_plain action :
  action +:+ "_list" ≠ "list" ∧ action +:+ "_list" ≠ "detail"
  ∧ action +:+ "_detail" ≠ "list" ∧ action +:+ "_detail" ≠ "detail".
Proof.
  repeat split; intros H.
  - apply (f_equal String.length) in H. rewrite length_append in H.
    simpl in H. lia.
  - destruct action as [|c [|c' r]]; try discriminate.
    apply (f_equal String.length) in H. simpl in H.
    rewrite length_append in H. simpl in H. lia.
  - apply (f_equal String.length) in H. rewrite length_append in H.
    simpl in H. lia.
  - apply (f_equal String.length) in H. rewrite length_append in H.
    simpl in H. lia.
Qed.

Lemma getattr_allowed_methods_action self st action suffix entry :
  suffix = "_list" ∨ suffix = "_detail" →
  allowed_attrs (cls self) !! ((action +:+ suffix) +:+ "_allowed_methods")
  = Some entry →
  getattr_allowed_methods self st (action +:+ suffix) = entry.
Proof.
  intros Hsuffix Hentry. unfold getattr_allowed_methods.
  destruct (action_kind_is_not_plain action) as (Hll & Hld & Hdl & Hdd).
  rewrite !bool_decide_eq_false_2, Hentry; [reflexivity| |].
  - intros H. destruct Hsuffix as [-> | ->].
    + apply Hld. by apply (append_suffix_inj "_allowed_methods").
    + apply Hdd. by apply (append_suffix_inj "_allowed_methods").
  - intros H. destruct Hsuffix as [-> | ->].
    + apply Hll. by apply (append_suffix_inj "_allowed_methods").
    + apply Hdl. by apply (append_suffix_inj "_allowed_methods").
Qed.

(** X17: an action is served by what the concrete class defines for it: when
    the class binds the allowed methods of the action's kind to a list that
    holds the verb, and defines a method named verb, action and [list] or
    [detail] joined by underscores, a request to the action URL is answered
    with the outcome of that method; on the detail form it gets the
    identifier of the URL as [resource_id]. No mixin has to supply
    anything. *)
Theorem action_reaches_own_method rt frames self st m action request cd
    allowed h :
  m = ListActionUrl action
  ∨ (∃ resource_id, m = DetailActionUrl resource_id action) →
  allowed_attrs (cls self) !! (kind m +:+ "_allowed_methods")
  = Some (Some allowed) →
  lower (method request) ∈ allowed →
  methods (cls self) !! (lower (method request) +:+ "_" +:+ kind m) = Some h →
  pre_dispatch (cls self) = None →
  post_dispatch (cls self) = None →
  codec_established self request cd →
  wrapper rt (S frames) self st m request
  = respond rt cd (set_codec request cd)
      (h (set_type (set_codec request cd) (kind m)) (url_kwargs m)).
Proof.
  intros Hm Hentry Hverb Hown Hpre Hpost Hc.
  apply (wrapper_runs_handler _ _ _ _ _ _ cd allowed h); try done.
  - destruct Hm as [-> | [resource_id ->]]; simpl in *.
    + by apply getattr_allowed_methods_action; [left|].
    + by apply getattr_allowed_methods_action; [right|].
  - unfold getattr_method. by rewrite Hown.
Qed.

Lemma action_reaches_own_method_witness :
  wrapper Widgets.runtime 1 (mkApi Gadgets.report_class "reports")
    ResourceApi_store (ListActionUrl "summary") (Widgets.request_of "GET" "")
  = mkResponse "summary" (Some "text/plain") (PyInt 200) ∅.
Proof.
  apply (action_reaches_own_method Widgets.runtime 0
           (mkApi Gadgets.report_class "reports") ResourceApi_store
           (ListActionUrl "summary") "summary" (Widgets.request_of "GET" "")
           Widgets.text_codec ["get"] Gadgets.get_summary_list).
  - by left.
  - reflexivity.
  - apply list_elem_of_here.
  - reflexivity.
  - reflexivity.
  - reflexivity.
  - reflexivity.
Defined.

(** ** Verbs *)

Lemma lower_char_idempotent c : lower_char (lower_char c) = lower_char c.
Proof. destruct c as [[] [] [] [] [] [] [] []]; reflexivity. Qed.

Lemma lower_idempotent s : lower (lower s) = lower s.
Proof.
  induction s as [|c r IH]; simpl; [reflexivity|].
  by rewrite lower_char_idempotent, IH.
Qed.

(** X18: a verb that passes the method check is the lower-cased method of
    the request and an element of the allowed list, so only lower-case
    entries of an allowed list can ever be matched, and handler names always
    start with a lower-case verb. *)
Theorem checked_verb_is_lower_case self request allowed v :
  method_check self request allowed = Return v →
  v = lower (method request)
  ∧ lower v = v
  ∧ ∃ entries, allowed = Some entries ∧ v ∈ entries.
Proof.
  unfold method_check, contains. intros Hcheck.
  destruct allowed as [entries|]; [|discriminate].
  destruct (bool_decide (lower (method request) ∈ entries)) eqn:Hin;
    simpl in Hcheck; [|discriminate].
  injection Hcheck as <-. apply bool_decide_eq_true_1 in Hin.
  split; [reflexivity|]. split; [apply lower_idempotent|].
  by exists entries.
Qed.

Lemma checked_verb_is_lower_case_witness :
  "get" = lower "GeT" ∧ lower "get" = "get"
  ∧ ∃ entries, Some ["get"; "POST"] = Some entries ∧ "get" ∈ entries.
Proof.
  exact (checked_verb_is_lower_case
           (mkApi (Widgets.widget_class []) "widgets")
           (Widgets.request_of "GeT" "") (Some ["get"; "POST"]) "get" eq_refl).
Defined.

(** ** Routes and collections *)

(** X19: every API has exactly two routes. A class that derives from
    [ActionMixin] routes to the two action views only, and has no route to
    [dispatch_list] or [dispatch_detail]; any other class routes to these two
    only. Each pattern is anchored, starts with the prefix and the
    lower-cased name of the API and ends with an optional slash. *)
Theorem action_mixin_replaces_plain_routes conf self :
  (ActionMixin ∈ mro (cls self) →
   map view (urls conf self)
   = ["dispatch_list_action"; "dispatch_detail_action"])
  ∧ (ActionMixin ∉ mro (cls self) →
     map view (urls conf self) = ["dispatch_list"; "dispatch_detail"])
  ∧ (∀ p, p ∈ urls conf self →
          ∃ part, regex p
                  = ("^" +:+ (url_prefix conf +:+ lower (api_name self)))
                    +:+ part +:+ "/?$").
Proof.
  unfold urls, base_urls.
  refine (conj _ (conj _ _)).
  - intros Hin. by rewrite bool_decide_eq_true_2.
  - intros Hnot. by rewrite bool_decide_eq_false_2.
  - intros p Hp. destruct (bool_decide (ActionMixin ∈ mro (cls self)));
      simpl in Hp;
      apply elem_of_cons in Hp as [-> | Hp];
      try (apply list_elem_of_singleton in Hp as ->);
      unfold url; simpl.
    + by exists "/(?P<action>[-\w\d]+)".
    + exists ("/(?P<resource_id>" +:+ resource_id_regex conf
              +:+ ")/(?P<action>[-\w\d]+)").
      reflexivity.
    + by exists "".
    + exists ("/(?P<resource_id>" +:+ resource_id_regex conf +:+ ")").
      reflexivity.
Qed.

(** The loop of [ApiCollection.urls] extends its list by the routes of one
    API after the other. *)
Lemma foldl_extend_urls (apis : list (UrlConf * Api)) (acc : list UrlPattern) :
  foldl (λ (acc : list UrlPattern) api,
           (acc ++ urls (fst api) (snd api))%list) acc apis
  = (acc ++ concat (map (λ api, urls (fst api) (snd api)) apis))%list.
Proof.
  revert acc. induction apis as [|api apis IH]; intros acc; simpl.
  - by rewrite app_nil_r.
  - by rewrite IH, app_assoc.
Qed.

Lemma urls_length conf self : length (urls conf self) = 2.
Proof.
  unfold urls, base_urls.
  by destruct (bool_decide (ActionMixin ∈ mro (cls self))).
Qed.

(** X20: the first read of [urls] on a new collection gives the routes of
    its APIs, in the order in which the APIs were passed, two for each, and
    [patterns] mounts exactly these under the name of the collection, [api]
    unless another was given, with no namespace. *)
Theorem collection_mounts_all_routes apis name :
  fst (ApiCollection_urls (ApiCollection_init apis name))
  = concat (map (λ api, urls (fst api) (snd api)) apis)
  ∧ length (fst (ApiCollection_urls (ApiCollection_init apis name)))
    = 2 * length apis
  ∧ fst (ApiCollection_patterns (ApiCollection_init apis name))
    = [("^" +:+ default "api" name +:+ "/",
        mkInclude (concat (map (λ api, urls (fst api) (snd api)) apis)) None)].
Proof.
  assert (fst (ApiCollection_urls (ApiCollection_init apis name))
          = concat (map (λ api, urls (fst api) (snd api)) apis)) as Hurls.
  { unfold ApiCollection_urls, ApiCollection_init. simpl.
    by rewrite foldl_extend_urls. }
  refine (conj Hurls (conj _ _)).
  - rewrite Hurls. induction apis as [|api apis IH]; simpl; [reflexivity|].
    rewrite length_app, urls_length.
    rewrite IH; [lia|]. unfold ApiCollection_urls, ApiCollection_init. simpl.
    by rewrite foldl_extend_urls.
  - unfold ApiCollection_patterns, ApiCollection_include.
    destruct (ApiCollection_urls (ApiCollection_init apis name))
      as [found self'] eqn:Hfound.
    simpl in Hurls. by rewrite Hurls.
Qed.

(** X21: [urls] is computed once. After the first read the collection
    holds the list, a further read returns the same list and changes
    nothing, and any collection that holds that list returns it whatever its
    [resource_apis] are by then. *)
Theorem collection_urls_are_memoised (self other : ApiCollection) :
  cached_urls (snd (ApiCollection_urls self))
  = Some (fst (ApiCollection_urls self))
  ∧ ApiCollection_urls (snd (ApiCollection_urls self))
    = (fst (ApiCollection_urls self), snd (ApiCollection_urls self))
  ∧ (cached_urls other = cached_urls (snd (ApiCollection_urls self)) →
     fst (ApiCollection_urls other) = fst (ApiCollection_urls self)).
Proof.
  unfold ApiCollection_urls.
  destruct (cached_urls self) as [found|] eqn:Hcache; simpl.
  - rewrite Hcache. repeat split. by intros ->.
  - repeat split. by intros ->.
Qed.

(** ** What the defaults of [ResourceApi] give *)

Lemma mro_lookup_absent d self order :
  (ListMixin ∉ order → mro_lookup d self order "get_list" = None)
  ∧ (RetrieveMixin ∉ order → mro_lookup d self order "get_detail" = None).
Proof.
  induction order as [|m rest [IHl IHr]]; [by split|].
  split; intros Hnot; apply not_elem_of_cons in Hnot as [Hne Hrest];
    destruct m; simpl; auto; done.
Qed.

(** X22: [get] is allowed on both kinds from the start, with or without a
    mixin. A class that does not derive from [ListMixin] and has no
    [get_list] of its own answers a GET on the list URL with 501, not with
    405, and likewise on a detail URL without [RetrieveMixin], as long as
    [get] is still in the lists. *)
Theorem get_without_mixin_answers_501 rt frames self st request cd :
  codec_established self request cd →
  lower (method request) = "get" →
  (ListMixin ∉ mro (cls self) →
   methods (cls self) !! "get_list" = None →
   "get" ∈ list_allowed_methods st →
   wrapper rt (S frames) self st ListUrl request
   = mkResponse
       (dumps cd (PyError (mkError 501 50100
                             "This method has not been implemented."
                             None None)))
       (Some (CONTENT_TYPE cd)) (PyInt 501) ∅)
  ∧ (∀ resource_id,
       RetrieveMixin ∉ mro (cls self) →
       methods (cls self) !! "get_detail" = None →
       "get" ∈ detail_allowed_methods st →
       wrapper rt (S frames) self st (DetailUrl resource_id) request
       = mkResponse
           (dumps cd (PyError (mkError 501 50100
                                 "This method has not been implemented."
                                 None None)))
           (Some (CONTENT_TYPE cd)) (PyInt 501) ∅).
Proof.
  intros Hc Hverb. split.
  - intros Hnot Hown Hget.
    rewrite (wrapper_established _ _ _ _ _ _ cd) by done.
    rewrite (dispatch_checked _ _ _ _ _ _ "get").
    + change ("get" +:+ "_" +:+ kind ListUrl) with "get_list".
      unfold getattr_method. rewrite Hown.
      by rewrite (proj1 (mro_lookup_absent _ _ _) Hnot).
    + pose proof (method_check_passes self (set_codec request cd)
                    (list_allowed_methods st)) as Hpass.
      change (method (set_codec request cd)) with (method request) in Hpass.
      rewrite Hverb in Hpass. by apply Hpass.
  - intros resource_id Hnot Hown Hget.
    rewrite (wrapper_established _ _ _ _ _ _ cd) by done.
    rewrite (dispatch_checked _ _ _ _ _ _ "get").
    + change ("get" +:+ "_" +:+ kind (DetailUrl resource_id))
        with "get_detail".
      unfold getattr_method. rewrite Hown.
      by rewrite (proj2 (mro_lookup_absent _ _ _) Hnot).
    + pose proof (method_check_passes self (set_codec request cd)
                    (detail_allowed_methods st)) as Hpass.
      change (method (set_codec request cd)) with (method request) in Hpass.
      rewrite Hverb in Hpass. by apply Hpass.
Qed.

Lemma get_without_mixin_answers_501_witness :
  wrapper Widgets.runtime 1 (mkApi (Widgets.widget_class []) "widgets")
    ResourceApi_store ListUrl (Widgets.request_of "GET" "")
  = mkResponse "error: This method has not been implemented."
               (Some "text/plain") (PyInt 501) ∅
  ∧ wrapper Widgets.runtime 1 (mkApi (Widgets.widget_class []) "widgets")
      ResourceApi_store (DetailUrl "1") (Widgets.request_of "GET" "")
    = mkResponse "error: This method has not been implemented."
                 (Some "text/plain") (PyInt 501) ∅.
Proof.
  destruct (get_without_mixin_answers_501 Widgets.runtime 0
              (mkApi (Widgets.widget_class []) "widgets") ResourceApi_store
              (Widgets.request_of "GET" "") Widgets.text_codec
              eq_refl eq_refl) as [Hlist Hdetail].
  split.
  - apply Hlist; [apply not_elem_of_nil | reflexivity | apply list_elem_of_here].
  - apply Hdetail;
      [apply not_elem_of_nil | reflexivity | apply list_elem_of_here].
Defined.

(** ** The [Allow] header after several constructions *)

Lemma init_store_repeats order st :
  list_allowed_methods (init_store order st)
  = (list_allowed_methods st
     ++ repeat "post" (count_occ Mixin_eq_dec order CreateMixin))%list.
Proof.
  induction order as [|m rest IH]; simpl; [by rewrite app_nil_r|].
  destruct m; simpl; try done.
  rewrite IH, <- app_assoc. f_equal.
  by rewrite repeat_cons.
Qed.

Lemma new_many_repeats c n :
  NoDup (mro c) → CreateMixin ∈ mro c →
  list_allowed_methods (new_many c n ResourceApi_store)
  = "get" :: repeat "post" n.
Proof.
  intros Hnd Hin. induction n as [|k IH]; [reflexivity|].
  simpl. rewrite init_store_repeats, IH, (mro_count_one _ _ Hnd Hin).
  simpl. f_equal. by rewrite repeat_cons.
Qed.

Lemma map_upper_repeat_post n :
  map upper (repeat "post" n) = repeat "POST" n.
Proof. induction n as [|k IH]; simpl; [reflexivity | by rewrite IH]. Qed.

(** X23: the duplicates show in responses. After [n] instances of a class
    deriving from [CreateMixin] have been constructed, starting from the
    lists of [ResourceApi], a verb that is not allowed on the list URL is
    answered with an [Allow] header that names GET once and POST [n]
    times. *)
Theorem allow_header_repeats_post rt frames c n self request cd :
  NoDup (mro c) →
  CreateMixin ∈ mro c →
  codec_established self request cd →
  lower (method request) ≠ "get" →
  lower (method request) ≠ "post" →
  headers (wrapper rt (S frames) self (new_many c n ResourceApi_store)
                   ListUrl request)
  = {["Allow" := join "," ("GET" :: repeat "POST" n)]}.
Proof.
  intros Hnd Hin Hc Hget Hpost.
  rewrite (wrapper_established _ _ _ _ _ _ cd) by done.
  rewrite (dispatch_check_fails _ _ _ _ _ _
             (ImmediateErrorHttpResponse 405 40500 "Method not allowed"
                (Some {["Allow" := join "," ("GET" :: repeat "POST" n)]}))).
  - unfold ImmediateErrorHttpResponse. by rewrite respond_immediate.
  - change (getattr_allowed_methods self (new_many c n ResourceApi_store)
              (kind ListUrl))
      with (Some (list_allowed_methods (new_many c n ResourceApi_store))).
    rewrite (new_many_repeats c n Hnd Hin).
    rewrite (method_check_rejects self (set_codec request cd)
               ("get" :: repeat "post" n)).
    + simpl map. by rewrite map_upper_repeat_post.
    + intros [H | H]%elem_of_cons; [done|].
      apply list_elem_of_In, repeat_spec in H. done.
Qed.

Lemma allow_header_repeats_post_witness :
  headers (wrapper Widgets.runtime 1 (mkApi Widgets.create_class "widgets")
                   (new_many Widgets.create_class 2 ResourceApi_store)
                   ListUrl (Widgets.request_of "DELETE" ""))
  = {["Allow" := "GET,POST,POST"]}.
Proof.
  apply (allow_header_repeats_post Widgets.runtime 0 Widgets.create_class 2
           (mkApi Widgets.create_class "widgets")
           (Widgets.request_of "DELETE" "") Widgets.text_codec).
  - apply NoDup_cons_2; [apply not_elem_of_nil | apply NoDup_nil_2].
  - apply list_elem_of_here.
  - reflexivity.
  - discriminate.
  - discriminate.
Defined.

(** ** The pre-dispatch hook as a gate *)

(** X24: an exception of the pre-dispatch hook ends the dispatch: the
    handler is not called, whatever it is, the post-dispatch hook is not
    run, and the response is the one of the table for that exception. *)
Theorem pre_dispatch_exception_ends_dispatch rt frames self st m request cd
    allowed h hook e :
  codec_established self request cd →
  getattr_allowed_methods self st (kind m) = Some allowed →
  lower (method request) ∈ allowed →
  getattr_method (dispatch frames self st) self
    (lower (method request) +:+ "_" +:+ kind m) = Some h →
  pre_dispatch (cls self) = Some hook →
  hook (set_type (set_codec request cd) (kind m)) (url_kwargs m) = Raise e →
  dispatch (S frames) self st (set_codec request cd) (kind m) (url_kwargs m)
  = Raise e
  ∧ wrapper rt (S frames) self st m request
    = respond rt cd (set_codec request cd) (Raise e).
Proof.
  intros Hc Hallowed Hverb Hattr Hhook Hraise.
  assert (dispatch (S frames) self st (set_codec request cd) (kind m)
            (url_kwargs m) = Raise e) as Hd.
  { rewrite (dispatch_reaches_handler _ _ _ _ _ _ allowed h) by done.
    unfold run_pre_dispatch. by rewrite Hhook, Hraise. }
  split; [exact Hd|].
  rewrite (wrapper_established _ _ _ _ _ _ cd) by done. by rewrite Hd.
Qed.

Lemma pre_dispatch_exception_ends_dispatch_witness :
  dispatch 1 (mkApi Gadgets.guarded_class "gadgets") ResourceApi_store
    (set_codec (Widgets.request_of "GET" "") Widgets.text_codec)
    "detail" {["resource_id" := PyStr "1"]}
  = Raise (PermissionDenied "log in first")
  ∧ wrapper Widgets.runtime 1 (mkApi Gadgets.guarded_class "gadgets")
      ResourceApi_store (DetailUrl "1") (Widgets.request_of "GET" "")
    = mkResponse "error: Permission denied" (Some "text/plain")
                 (PyInt 403) ∅.
Proof.
  exact (pre_dispatch_exception_ends_dispatch Widgets.runtime 0
           (mkApi Gadgets.guarded_class "gadgets") ResourceApi_store
           (DetailUrl "1") (Widgets.request_of "GET" "") Widgets.text_codec
           ["get"] (get_detail (mkApi Gadgets.guarded_class "gadgets"))
           Gadgets.login_required (PermissionDenied "log in first")
           eq_refl eq_refl (list_elem_of_here _ _) eq_refl eq_refl eq_refl).
Defined.
